(** * The interactive setup script of next-saas-starter-turso

    A shallow embedding of the provisioning script that follows the schema
    in [src/lib/db/schema.ts] (functions [question], [checkStripeCLI],
    [checkTursoCLI], [getTursoDatabaseInfo], [getStripeSecretKey],
    [createStripeWebhook], [generateAuthSecret], [writeEnvFile], [main] and
    the top-level statement [main().catch(console.error)]).

    The script is a straight-line sequence of shell-outs, prompts and console
    output with [try]/[catch] blocks and [process.exit].  It is embedded in a
    small monad of its own: a computation reads the environment (what the
    tools and the operator reply), threads the state of the run (the
    chronological trace of effects, the file system and the number of
    requests made so far) and ends in one of four outcomes: it returns, it
    throws, the process has exited, or it waits for a promise that never
    settles. *)

From Stdlib Require Import Ascii NArith.
From Stdlib Require Strings.Byte.
From stdpp Require Import gmap strings list.

Local Open Scope N_scope.

(** String concatenation computes on literal prefixes throughout this file. *)
Local Arguments String.append !_ _ / : simpl nomatch.

(** ** JavaScript strings

    A string is modelled as a Rocq [string], read as UTF-8 text.  The
    script applies three operations to strings it does not build itself:
    [toLowerCase], [trim] and a match against an ASCII-only regular
    expression.  [toLowerCase] is modelled on the ASCII range, where it
    maps A-Z: the script compares a lowercased answer only with the
    one-letter literals "y" and "l", which no character outside A-Z/a-z maps
    to, so its tests are decided exactly as in JavaScript.  [trim] drops
    every white space and line terminator of the language, the ones outside
    ASCII as the two or three bytes of their UTF-8 form. *)

Module JsString.

Definition code (c : ascii) : N := N_of_ascii c.

Definition is_upper (c : ascii) : bool := (65 <=? code c) && (code c <=? 90).
Definition is_lower (c : ascii) : bool := (97 <=? code c) && (code c <=? 122).
Definition is_digit (c : ascii) : bool := (48 <=? code c) && (code c <=? 57).

(** The character class [[a-zA-Z0-9]]. *)
Definition is_alnum (c : ascii) : bool := is_lower c || is_upper c || is_digit c.

(** The class [[0-9a-f]] of lowercase hexadecimal digits. *)
Definition is_lower_hex (c : ascii) : bool :=
  is_digit c || ((97 <=? code c) && (code c <=? 102)).

Definition is_newline (c : ascii) : bool := code c =? 10.

Definition lower_char (c : ascii) : ascii :=
  if is_upper c then ascii_of_N (code c + 32) else c.

(** [String.prototype.toLowerCase]. *)
Fixpoint toLowerCase (s : string) : string :=
  match s with
  | EmptyString => EmptyString
  | String c t => String (lower_char c) (toLowerCase t)
  end.

Fixpoint all_chars (p : ascii → bool) (s : string) : bool :=
  match s with
  | EmptyString => true
  | String c t => p c && all_chars p t
  end.

Fixpoint any_char (p : ascii → bool) (s : string) : bool :=
  match s with
  | EmptyString => false
  | String c t => p c || any_char p t
  end.

Definition contains_newline (s : string) : bool := any_char is_newline s.

Definition is_empty (s : string) : bool :=
  match s with EmptyString => true | String _ _ => false end.

(** Tab, line feed, vertical tab, form feed, carriage return, space. *)
Definition is_space (c : ascii) : bool :=
  ((9 <=? code c) && (code c <=? 13)) || (code c =? 32).

(** The no-break space U+00A0, in UTF-8 the bytes C2 A0. *)
Definition is_space2 (a b : ascii) : bool := (code a =? 194) && (code b =? 160).

(** The white space of three bytes: U+1680 (E1 9A 80), U+2000 to U+200A
    (E2 80 80 to E2 80 8A), the line and paragraph separators U+2028 and
    U+2029 (E2 80 A8, E2 80 A9), U+202F (E2 80 AF), U+205F (E2 81 9F),
    U+3000 (E3 80 80) and the byte order mark U+FEFF (EF BB BF). *)
Definition is_space3 (a b c : ascii) : bool :=
  ((code a =? 225) && (code b =? 154) && (code c =? 128))
  || ((code a =? 226) && (code b =? 128) &&
      (((128 <=? code c) && (code c <=? 138)) ||
       (code c =? 168) || (code c =? 169) || (code c =? 175)))
  || ((code a =? 226) && (code b =? 129) && (code c =? 159))
  || ((code a =? 227) && (code b =? 128) && (code c =? 128))
  || ((code a =? 239) && (code b =? 187) && (code c =? 191)).

(** The string without the white space it starts with, for white space
    of one byte ([is_space]), two bytes ([sp2]) and three bytes ([sp3]). *)
Fixpoint drop_spaces (sp2 : ascii → ascii → bool)
    (sp3 : ascii → ascii → ascii → bool) (s : string) : string :=
  match s with
  | String a r1 =>
      if is_space a then drop_spaces sp2 sp3 r1
      else match r1 with
           | String b r2 =>
               if sp2 a b then drop_spaces sp2 sp3 r2
               else match r2 with
                    | String c r3 => if sp3 a b c then drop_spaces sp2 sp3 r3 else s
                    | EmptyString => s
                    end
           | EmptyString => s
           end
  | EmptyString => s
  end.

(** [String.prototype.trim]: white space and line terminators are dropped
    from both ends, the interior is kept.  At the end of the string the
    bytes of a character are met last byte first. *)
Definition trimStart (s : string) : string := drop_spaces is_space2 is_space3 s.

Definition trimEnd (s : string) : string :=
  String.rev (drop_spaces (λ b a, is_space2 a b) (λ c b a, is_space3 a b c)
                          (String.rev s)).

Definition trim (s : string) : string := trimEnd (trimStart s).

(** [Array.prototype.join] on an array of strings: the result starts as
    the first element, and each further element is appended after the
    separator. *)
Definition join (sep : string) (l : list string) : string :=
  match l with
  | [] => EmptyString
  | x :: rest => foldl (λ acc y, acc +:+ sep +:+ y) x rest
  end.

(** Strict equality [===] of two strings, as a boolean. *)
Definition eqb (a b : string) : bool := String.eqb a b.

End JsString.

(** ** Lines of input

    [rl.question] hands its callback one line of input without the line
    terminator: of what is typed at a prompt, the text up to the first line
    feed or carriage return.  A line therefore holds neither of the two. *)

Module Readline.

Definition is_terminator (c : ascii) : bool :=
  (JsString.code c =? 10) || (JsString.code c =? 13).

Fixpoint line (typed : string) : string :=
  match typed with
  | EmptyString => EmptyString
  | String c t => if is_terminator c then EmptyString else String c (line t)
  end.

End Readline.

(** ** The regular expression [/whsec_[a-zA-Z0-9]+/]

    [stdout.match(re)] without the [g] flag returns the leftmost match, and
    the quantifier [+] is greedy: the match is the literal prefix followed by
    the longest run of alphanumeric characters, which must not be empty. *)

Module Whsec.
Import JsString.

Definition prefix : string := "whsec_".

(** The longest alphanumeric prefix of [s]. *)
Fixpoint take_alnum (s : string) : string :=
  match s with
  | String c t => if is_alnum c then String c (take_alnum t) else EmptyString
  | EmptyString => EmptyString
  end.

(** [strip p s] is what follows [p] in [s], when [s] starts with [p]. *)
Fixpoint strip (p s : string) : option string :=
  match p, s with
  | EmptyString, _ => Some s
  | String a p', String b s' => if Ascii.eqb a b then strip p' s' else None
  | String _ _, EmptyString => None
  end.

(** A match anchored at the first character of [s]. *)
Definition match_here (s : string) : option string :=
  match strip prefix s with
  | Some rest =>
      match take_alnum rest with
      | EmptyString => None
      | run => Some (prefix +:+ run)
      end
  | None => None
  end.

(** [s.match(/whsec_[a-zA-Z0-9]+/)]: [None] is JavaScript's [null], and
    [Some m] carries [match[0]]. *)
Fixpoint match_ (s : string) : option string :=
  match match_here s with
  | Some m => Some m
  | None =>
      match s with
      | EmptyString => None
      | String _ t => match_ t
      end
  end.

(** What the words "contains a substring matching [whsec_] followed by one
    or more alphanumeric characters" say, without reference to [match_]. *)
Definition has_secret (s : string) : Prop :=
  ∃ pre run post,
    s = pre +:+ prefix +:+ run +:+ post ∧ run ≠ EmptyString ∧ all_chars is_alnum run = true.

End Whsec.

(** ** [Buffer.prototype.toString("hex")] *)

Module Hex.

Definition digit (n : N) : ascii :=
  if n <? 10 then ascii_of_N (48 + n) else ascii_of_N (87 + n).

Definition of_byte (b : Byte.byte) (rest : string) : string :=
  let n := Byte.to_N b in
  String (digit (n / 16)) (String (digit (n mod 16)) rest).

Definition encode (bytes : list Byte.byte) : string :=
  foldr of_byte EmptyString bytes.

End Hex.

(** ** JavaScript objects used as string maps

    An object of type [Record<string, string>] is the list of its own
    properties in creation order.  [Object.entries] follows the property
    order of the language: keys that are array indices (canonical decimal
    numerals below 2^32 - 1) come first in ascending numeric order, then the
    remaining string keys in creation order.  The objects of the script
    inherit from [Object.prototype], whose accessor [__proto__] takes an
    assignment to that name: with a string as value it does nothing, and no
    own property is made. *)

Module JsObject.
Import JsString.

Abbreviation t := (list (string * string)).

(** The value of the own property [k], if there is one. *)
Fixpoint get (k : string) (o : t) : option string :=
  match o with
  | [] => None
  | (k', v) :: rest => if String.eqb k k' then Some v else get k rest
  end.

(** [Object.hasOwn(o, k)]. *)
Definition has (k : string) (o : t) : bool :=
  match get k o with Some _ => true | None => false end.

(** An own property is created or given a new value: an existing property
    keeps its place. *)
Fixpoint define (k v : string) (o : t) : t :=
  match o with
  | [] => [(k, v)]
  | (k', v') :: rest =>
      if String.eqb k k' then (k, v) :: rest else (k', v') :: define k v rest
  end.

(** [o[k] = v] for a string [v].  The name [__proto__] reaches the
    inherited accessor unless the object has an own property of that
    name. *)
Definition set (k v : string) (o : t) : t :=
  if String.eqb k "__proto__" && negb (has k o) then o else define k v o.

(** An object literal [{ k1: v1, ..., kn: vn }]. *)
Definition literal (props : list (string * string)) : t :=
  foldl (λ o kv, set kv.1 kv.2 o) [] props.

Definition keys (o : t) : list string := fst <$> o.
Definition values (o : t) : list string := snd <$> o.

Fixpoint parse_digits (acc : N) (s : string) : option N :=
  match s with
  | EmptyString => Some acc
  | String c rest =>
      if is_digit c then parse_digits (10 * acc + (code c - 48)) rest else None
  end.

Definition array_index (k : string) : option N :=
  match k with
  | EmptyString => None
  | String c rest =>
      if Ascii.eqb c "0" && negb (is_empty rest) then None
      else match parse_digits 0 k with
           | Some n => if n <? 2 ^ 32 - 1 then Some n else None
           | None => None
           end
  end.

Fixpoint insert_sorted (e : N * (string * string))
    (l : list (N * (string * string))) : list (N * (string * string)) :=
  match l with
  | [] => [e]
  | x :: rest => if e.1 <=? x.1 then e :: l else x :: insert_sorted e rest
  end.

Definition index_props (o : t) : list (N * (string * string)) :=
  omap (λ kv, (λ n, (n, kv)) <$> array_index kv.1) o.

Definition named_props (o : t) : list (string * string) :=
  filter (λ kv, array_index kv.1 = None) o.

(** [Object.entries(o)]. *)
Definition entries (o : t) : list (string * string) :=
  (snd <$> foldr insert_sorted [] (index_props o)) ++ named_props o.

End JsObject.

(** ** Effects of the script *)

(** A JavaScript [Error] value, identified by its message. *)
Inductive error : Type :=
  | Error (message : string).

(** The result of [execAsync(cmd)]: the promise resolves with the captured
    output streams, or rejects when the command cannot be run or exits with
    a non-zero status. *)
Inductive exec_result : Type :=
  | ExecOk (stdout stderr : string)
  | ExecFail (e : error).

(** An argument of [console.error]. *)
Inductive js_value : Type :=
  | VStr (s : string)
  | VErr (e : error).

(** What a run does to the outside world, in the order it happens. *)
Inductive event : Type :=
  | EvLog (line : string)
  | EvError (args : list js_value)
  | EvExec (cmd : string) (r : exec_result)
  | EvAsk (query answer : string)
  | EvUnanswered (query : string)
  | EvRandom (n : nat) (bytes : list Byte.byte)
  | EvWrite (path content : string) (failure : option error).

(** The surroundings of one invocation.  The process turns to them once
    per subprocess, prompt, random draw and file write; the first argument
    of a reply is the number of earlier such requests, so every sequence of
    tool results and operator answers is the behaviour of some
    environment.  At a prompt the operator types something, or the input
    has ended ([None]). *)
Record env : Type := Env {
  exec_reply : nat → string → exec_result;
  answer : nat → string → option string;
  entropy : nat → nat → Byte.byte;
  write_failure : nat → string → string → option error;
  platform : string;
  cwd : string
}.

(** The state of a run: what has happened so far, the file system, and
    the number of requests made to the environment. *)
Record state : Type := State {
  trace : list event;
  files : gmap string string;
  requests : nat
}.

(** A fresh invocation over the file system [fs]. *)
Definition init (fs : gmap string string) : state := State [] fs 0.

(** An effect that needs no reply. *)
Definition record (ev : event) (st : state) : state :=
  State (trace st ++ [ev]) (files st) (requests st).

(** An effect the environment has replied to. *)
Definition replied (ev : event) (st : state) : state :=
  State (trace st ++ [ev]) (files st) (S (requests st)).

(** How a computation ends.  [Pending] is a promise that never settles:
    nothing after the [await] runs, no [catch] block is entered, and the
    process ends once nothing else is left to do. *)
Inductive outcome (A : Type) : Type :=
  | Returned (a : A)
  | Thrown (e : error)
  | Exited (code : N)
  | Pending.
Arguments Returned {A} a.
Arguments Thrown {A} e.
Arguments Exited {A} code.
Arguments Pending {A}.

Definition M (A : Type) : Type := env → state → outcome A * state.

Global Instance M_ret : MRet M := λ A a _ st, (Returned a, st).

Global Instance M_bind : MBind M := λ A B k m E st,
  match m E st with
  | (Returned a, st') => k a E st'
  | (Thrown e, st') => (Thrown e, st')
  | (Exited c, st') => (Exited c, st')
  | (Pending, st') => (Pending, st')
  end.

(** [throw e]. *)
Definition throw {A} (e : error) : M A := λ _ st, (Thrown e, st).

(** [process.exit(code)] ends the process on the spot: no [catch] block
    sees it and nothing after it runs. *)
Definition process_exit {A} (code : N) : M A := λ _ st, (Exited code, st).

(** [try { body } catch (error) { handler }]. *)
Definition try_catch {A} (body : M A) (handler : error → M A) : M A := λ E st,
  match body E st with
  | (Thrown e, st') => handler e E st'
  | r => r
  end.

(** [if (b) { m }] followed by the rest of the block. *)
Definition when (b : bool) (m : M unit) : M unit := if b then m else mret tt.

Definition console_log (line : string) : M unit := λ _ st,
  (Returned tt, record (EvLog line) st).

Definition console_error (args : list js_value) : M unit := λ _ st,
  (Returned tt, record (EvError args) st).

(** [execAsync = promisify(exec)]. *)
Definition execAsync (cmd : string) : M (string * string) := λ E st,
  let r := exec_reply E (requests st) cmd in
  let st' := replied (EvExec cmd r) st in
  match r with
  | ExecOk out err => (Returned (out, err), st')
  | ExecFail e => (Thrown e, st')
  end.

(** [crypto.randomBytes(n)]: exactly [n] bytes of the system's secure
    random source. *)
Definition crypto_randomBytes (n : nat) : M (list Byte.byte) := λ E st,
  let bytes := entropy E (requests st) <$> seq 0 n in
  (Returned bytes, replied (EvRandom n bytes) st).

(** [fs.writeFile(path, content)] with the default flag: the file is
    created or replaced.  A write that fails is taken to leave the file
    system as it was. *)
Definition fs_writeFile (path content : string) : M unit := λ E st,
  match write_failure E (requests st) path content with
  | None =>
      (Returned tt,
       State (trace st ++ [EvWrite path content None])
             (<[path := content]> (files st)) (S (requests st)))
  | Some e => (Thrown e, replied (EvWrite path content (Some e)) st)
  end.

Definition os_platform : M string := λ E st, (Returned (platform E), st).
Definition process_cwd : M string := λ E st, (Returned (cwd E), st).

(** [path.join(dir, name)] for a normalized directory and a plain name. *)
Definition path_join (dir name : string) : string :=
  match String.rev dir with
  | String "/" _ => dir +:+ name
  | _ => dir +:+ "/" +:+ name
  end.

(** ** The script *)

(** [question(query)]: the prompt is shown and the promise resolves with
    the next line of input.  When the input ends before a line comes, the
    interface closes without calling back and the promise never settles. *)
Definition question (query : string) : M string := λ E st,
  match answer E (requests st) query with
  | Some typed =>
      let ans := Readline.line typed in
      (Returned ans, replied (EvAsk query ans) st)
  | None => (Pending, replied (EvUnanswered query) st)
  end.

Definition checkStripeCLI : M unit :=
  console_log "Step 1: Checking if Stripe CLI is installed and authenticated...";;
  try_catch
    (execAsync "stripe --version";;
     console_log "Stripe CLI is installed.";;
     try_catch
       (execAsync "stripe config --list";;
        console_log "Stripe CLI is authenticated.")
       (λ _,
          console_log "Stripe CLI is not authenticated or the authentication has expired.";;
          console_log "Please run: stripe login";;
          ans ← question "Have you completed the authentication? (y/n): ";
          when (negb (JsString.eqb (JsString.toLowerCase ans) "y"))
            (console_log "Please authenticate with Stripe CLI and run this script again.";;
             process_exit 1);;
          try_catch
            (execAsync "stripe config --list";;
             console_log "Stripe CLI authentication confirmed.")
            (λ _,
               console_error
                 [VStr "Failed to verify Stripe CLI authentication. Please try again."];;
               process_exit 1)))
    (λ _,
       console_error [VStr "Stripe CLI is not installed. Please install it and try again."];;
       console_log "To install Stripe CLI, follow these steps:";;
       console_log "1. Visit: https://docs.stripe.com/stripe-cli";;
       console_log "2. Download and install the Stripe CLI for your operating system";;
       console_log "3. After installation, run: stripe login";;
       console_log "After installation and authentication, please run this setup script again.";;
       process_exit 1).

Definition checkTursoCLI : M unit :=
  console_log "Checking if Turso CLI is installed...";;
  try_catch
    (execAsync "turso --version";;
     console_log "Turso CLI is installed.")
    (λ _,
       console_error [VStr "Turso CLI is not installed. Please install it and try again."];;
       console_log "To install Turso CLI, follow these steps:";;
       console_log "1. Visit: https://docs.turso.tech/reference/turso-cli";;
       console_log "2. Follow the installation instructions for your operating system";;
       console_log "After installation, please run this setup script again.";;
       process_exit 1).

(** The value of [getTursoDatabaseInfo]; [authToken] is an optional
    property, absent on the local path. *)
Record db_info : Type := DbInfo {
  url : string;
  isRemote : bool;
  authToken : option string
}.

Definition getTursoDatabaseInfo : M db_info :=
  console_log "Step 2: Setting up Database";;
  dbChoice ← question
    "Do you want to use a local SQLite file (L) or a remote Turso database (R)? (L/R): ";
  if JsString.eqb (JsString.toLowerCase dbChoice) "l" then
    mret (DbInfo "file:dev.db" false None)
  else
    checkTursoCLI;;
    dbName ← question "Enter a name for your Turso database: ";
    try_catch
      (console_log ("Creating Turso database: " +:+ dbName);;
       execAsync ("turso db create " +:+ dbName);;
       console_log ("Turso database '" +:+ dbName +:+ "' created successfully.");;
       '(urlOutput, _) ← execAsync ("turso db show " +:+ dbName +:+ " --url");
       let url := JsString.trim urlOutput in
       authToken ← question "Enter your Turso authentication token: ";
       mret (DbInfo url true (Some authToken)))
      (λ e,
         console_error [VStr "Failed to create Turso database:"; VErr e];;
         process_exit 1).

Definition getStripeSecretKey : M string :=
  console_log "Step 3: Getting Stripe Secret Key";;
  console_log
    "You can find your Stripe Secret Key at: https://dashboard.stripe.com/test/apikeys";;
  question "Enter your Stripe Secret Key: ".

Definition createStripeWebhook : M string :=
  console_log "Step 4: Creating Stripe webhook...";;
  try_catch
    ('(stdout, _) ← execAsync "stripe listen --print-secret";
     match Whsec.match_ stdout with
     | None => throw (Error "Failed to extract Stripe webhook secret")
     | Some secret =>
         console_log "Stripe webhook created.";;
         mret secret
     end)
    (λ e,
       console_error
         [VStr "Failed to create Stripe webhook. Check your Stripe CLI installation and permissions."];;
       os ← os_platform;
       when (JsString.eqb os "win32")
         (console_log
            "Note: On Windows, you may need to run this script as an administrator.");;
       throw e).

Definition generateAuthSecret : M string :=
  console_log "Step 5: Generating AUTH_SECRET...";;
  bytes ← crypto_randomBytes 32;
  mret (Hex.encode bytes).

Definition env_line (kv : string * string) : string := kv.1 +:+ "=" +:+ kv.2.

Definition envContent (envVars : JsObject.t) : string :=
  JsString.join "
" (env_line <$> JsObject.entries envVars).

Definition writeEnvFile (envVars : JsObject.t) : M unit :=
  console_log "Step 6: Writing environment variables to .env";;
  dir ← process_cwd;
  fs_writeFile (path_join dir ".env") (envContent envVars);;
  console_log ".env file created with the necessary variables.".

(** JavaScript truthiness of a possibly undefined string. *)
Definition truthy (v : option string) : bool :=
  match v with
  | Some s => negb (JsString.is_empty s)
  | None => false
  end.

(** The body of [main] down to the conditional assignment of
    [envVars.TURSO_AUTH_TOKEN]; its value is the object [envVars]. *)
Definition main_envVars : M JsObject.t :=
  checkStripeCLI;;
  info ← getTursoDatabaseInfo;
  STRIPE_SECRET_KEY ← getStripeSecretKey;
  STRIPE_WEBHOOK_SECRET ← createStripeWebhook;
  let BASE_URL := "http://localhost:3000" in
  AUTH_SECRET ← generateAuthSecret;
  let envVars := JsObject.literal
    [("TURSO_DATABASE_URL", url info);
     ("STRIPE_SECRET_KEY", STRIPE_SECRET_KEY);
     ("STRIPE_WEBHOOK_SECRET", STRIPE_WEBHOOK_SECRET);
     ("BASE_URL", BASE_URL);
     ("AUTH_SECRET", AUTH_SECRET)] in
  mret (if isRemote info && truthy (authToken info)
        then JsObject.set "TURSO_AUTH_TOKEN" (default EmptyString (authToken info)) envVars
        else envVars).

Definition main : M unit :=
  main_envVars;;
  console_log "ðŸŽ‰ Setup completed successfully!".

(** The top-level statement [main().catch(console.error)]. *)
Definition script : M unit :=
  try_catch main (λ e, console_error [VErr e]).

(** The exit status of the process once nothing is left to run: the code
    given to [process.exit], 0 when the script falls off its end or is left
    waiting for a promise that never settles, and 1 for a rejection that no
    handler took. *)
Definition exit_status {A} (o : outcome A) : N :=
  match o with
  | Returned _ => 0
  | Exited code => code
  | Thrown _ => 1
  | Pending => 0
  end.

(** ** Observations on a trace *)

Definition is_write (ev : event) : bool :=
  match ev with
  | EvWrite _ _ _ => true
  | _ => false
  end.

(** An effect that reaches outside the process and its terminal: a
    subprocess, a prompt or a file write. *)
Definition is_external (ev : event) : bool :=
  match ev with
  | EvExec _ _ | EvAsk _ _ | EvUnanswered _ | EvWrite _ _ _ => true
  | _ => false
  end.

(** The six steps of the workflow and the line each one prints first. *)
Inductive step : Type :=
  | Preflight | Provisioning | SecretCollection | WebhookRegistration
  | SecretGeneration | FileWrite.

Definition banner (s : step) : string :=
  match s with
  | Preflight => "Step 1: Checking if Stripe CLI is installed and authenticated..."
  | Provisioning => "Step 2: Setting up Database"
  | SecretCollection => "Step 3: Getting Stripe Secret Key"
  | WebhookRegistration => "Step 4: Creating Stripe webhook..."
  | SecretGeneration => "Step 5: Generating AUTH_SECRET..."
  | FileWrite => "Step 6: Writing environment variables to .env"
  end.

(** The steps that come after the preflight. *)
Definition later_steps : list step :=
  [Provisioning; SecretCollection; WebhookRegistration; SecretGeneration; FileWrite].

Definition is_banner (s : step) (ev : event) : bool :=
  match ev with
  | EvLog line => String.eqb line (banner s)
  | _ => false
  end.

(** A step has started in a run when its first line is on the trace. *)
Definition started (s : step) (tr : list event) : bool := existsb (is_banner s) tr.

(** The results of the runs of [cmd], in order. *)
Definition exec_results (cmd : string) (tr : list event) : list exec_result :=
  omap (λ ev, match ev with
              | EvExec c r => if String.eqb c cmd then Some r else None
              | _ => None
              end) tr.

(** The operator's answers to the prompt [query], in order. *)
Definition answers_to (query : string) (tr : list event) : list string :=
  omap (λ ev, match ev with
              | EvAsk q a => if String.eqb q query then Some a else None
              | _ => None
              end) tr.

(** The last thing that happened. *)
Definition last_event (tr : list event) : option event := last tr.

(** The names of the prompts and commands that claims refer to. *)
Definition auth_probe : string := "stripe config --list".
Definition version_probe : string := "stripe --version".
Definition webhook_session : string := "stripe listen --print-secret".
Definition auth_prompt : string := "Have you completed the authentication? (y/n): ".
Definition choice_prompt : string :=
  "Do you want to use a local SQLite file (L) or a remote Turso database (R)? (L/R): ".
Definition token_prompt : string := "Enter your Turso authentication token: ".
Definition key_prompt : string := "Enter your Stripe Secret Key: ".
Definition extraction_failure : error :=
  Error "Failed to extract Stripe webhook secret".

(** The answers the script takes for "yes" at the remediation prompt and
    for "local" at the data-store prompt: the tests
    [answer.toLowerCase() !== "y"] and [dbChoice.toLowerCase() === "l"]. *)
Definition affirmative (ans : string) : bool :=
  JsString.eqb (JsString.toLowerCase ans) "y".
Definition chooses_local (ans : string) : bool :=
  JsString.eqb (JsString.toLowerCase ans) "l".

(** The operator chose the remote data store in the run [tr]. *)
Definition chose_remote (tr : list event) : bool :=
  existsb (λ c, negb (chooses_local c)) (answers_to choice_prompt tr).

(** The operator gave a non-empty authentication token in the run [tr]. *)
Definition gave_token (tr : list event) : bool :=
  existsb (λ t, negb (JsString.is_empty t)) (answers_to token_prompt tr).

(** A value that fills exactly one line: not empty, no newline. *)
Definition single_line (v : string) : bool :=
  negb (JsString.is_empty v) && negb (JsString.contains_newline v).

(** The keys every configuration must carry. *)
Definition mandatory_keys : list string :=
  ["TURSO_DATABASE_URL"; "STRIPE_SECRET_KEY"; "STRIPE_WEBHOOK_SECRET";
   "BASE_URL"; "AUTH_SECRET"].

(** The keys a configuration can carry. *)
Definition config_keys : list string := mandatory_keys ++ ["TURSO_AUTH_TOKEN"].

(** The text the specification describes for a list of pairs: each pair on
    a line of its own as [KEY=value], a newline between two lines and none
    after the last. *)
Fixpoint config_text (pairs : list (string * string)) : string :=
  match pairs with
  | [] => EmptyString
  | [(k, v)] => k +:+ "=" +:+ v
  | (k, v) :: rest => k +:+ "=" +:+ v +:+ "
" +:+ config_text rest
  end.

(** ** Sample environments *)

Module Samples.

Definition ok (out : string) : exec_result := ExecOk out EmptyString.

(** Every tool succeeds; the webhook session prints a signing secret and
    the URL query prints a padded URL. *)
Definition tools_ok (_ : nat) (cmd : string) : exec_result :=
  if String.eqb cmd "stripe listen --print-secret"
  then ok "Ready! Your webhook signing secret is whsec_abc123 (^C to quit)"
  else if String.eqb cmd "turso db show mydb --url"
  then ok "  libsql://example.turso.io  
"
  else ok EmptyString.

(** The operator's answers, by prompt. *)
Definition operator (choice token key : string) (_ : nat) (q : string) : option string :=
  Some (if String.eqb q "Enter your Stripe Secret Key: " then key
        else if String.eqb q "Enter a name for your Turso database: " then "mydb"
        else if String.eqb q "Enter your Turso authentication token: " then token
        else if String.eqb q "Have you completed the authentication? (y/n): " then "y"
        else choice).

Definition make (tools : nat → string → exec_result)
    (ask : nat → string → option string) : env :=
  Env tools ask (λ _ i, if Nat.even i then Byte.x1a else Byte.xf0)
      (λ _ _ _, None) "linux" "/app".

Definition local_run : env := make tools_ok (operator "L" EmptyString "sk_test_123").
Definition remote_run : env := make tools_ok (operator "R" "tok_1" "sk_test_123").
Definition remote_empty_token : env := make tools_ok (operator "r" EmptyString "sk_test_123").
Definition empty_key : env := make tools_ok (operator "l" EmptyString EmptyString).

(** The payment tool is not installed. *)
Definition no_stripe : env :=
  make (λ _ _, ExecFail (Error "command not found")) (operator "L" EmptyString "sk_test_123").

(** The webhook session starts but prints no signing secret. *)
Definition no_secret : env :=
  make (λ h cmd, if String.eqb cmd "stripe listen --print-secret"
                 then ok "Ready! whsec_ (^C to quit)" else tools_ok h cmd)
       (operator "L" EmptyString "sk_test_123").

(** The payment tool is logged out at first (the second request of the
    run) and logged in at the re-check, once the operator has answered
    [a]. *)
Definition login_after (a : string) : env :=
  make (λ n cmd, if String.eqb cmd "stripe config --list"
                 then (if Nat.eqb n 1
                       then ExecFail (Error "not logged in") else ok EmptyString)
                 else tools_ok n cmd)
       (λ n q, if String.eqb q "Have you completed the authentication? (y/n): "
               then Some a else operator "L" EmptyString "sk_test_123" n q).

(** The payment tool stays logged out. *)
Definition never_logged_in : env :=
  make (λ h cmd, if String.eqb cmd "stripe config --list"
                 then ExecFail (Error "not logged in") else tools_ok h cmd)
       (operator "L" EmptyString "sk_test_123").

(** The database tool prints a notice line before the URL. *)
Definition chatty_turso : env :=
  make (λ h cmd, if String.eqb cmd "turso db show mydb --url"
                 then ok "update available
libsql://example.turso.io
" else tools_ok h cmd)
       (operator "R" "tok_1" EmptyString).

(** The database tool prints an empty line for the URL. *)
Definition silent_turso : env :=
  make (λ h cmd, if String.eqb cmd "turso db show mydb --url"
                 then ok "
" else tools_ok h cmd)
       (operator "R" "tok_1" "sk_test_123").

(** The input ends at the prompt for the data store. *)
Definition input_ends : env :=
  make tools_ok (λ _ _, None).

(** No signing secret is printed, and the directory is read-only. *)
Definition no_secret_read_only : env :=
  Env (exec_reply no_secret) (answer no_secret) (λ _ _, Byte.x00)
      (λ _ _ _, Some (Error "EACCES: permission denied")) "win32" "/app".

(** A configuration as [main] assembles it on the local path. *)
Definition local_config : JsObject.t :=
  JsObject.literal
    [("TURSO_DATABASE_URL", "file:dev.db");
     ("STRIPE_SECRET_KEY", "sk_test_123");
     ("STRIPE_WEBHOOK_SECRET", "whsec_abc123");
     ("BASE_URL", "http://localhost:3000");
     ("AUTH_SECRET", "00ff")].

(** The configuration [main] assembles in [remote_run]. *)
Definition remote_config : JsObject.t :=
  [("TURSO_DATABASE_URL", "libsql://example.turso.io");
   ("STRIPE_SECRET_KEY", "sk_test_123");
   ("STRIPE_WEBHOOK_SECRET", "whsec_abc123");
   ("BASE_URL", "http://localhost:3000");
   ("AUTH_SECRET", "1af01af01af01af01af01af01af01af01af01af01af01af01af01af01af01af0");
   ("TURSO_AUTH_TOKEN", "tok_1")].

(** An object whose second key is an array index. *)
Definition indexed_config : JsObject.t :=
  JsObject.literal [("b", "x"); ("1", "y")].

End Samples.

(** ** Further observations on a trace *)

(** The commands that were run, in order, and those among them that
    failed. *)
Definition commands (tr : list event) : list string :=
  omap (λ ev, match ev with EvExec c _ => Some c | _ => None end) tr.

Definition failed_commands (tr : list event) : list string :=
  omap (λ ev, match ev with EvExec c (ExecFail _) => Some c | _ => None end) tr.

(** The prompts that were shown, in order. *)
Definition queries (tr : list event) : list string :=
  omap (λ ev, match ev with
              | EvAsk q _ | EvUnanswered q => Some q
              | _ => None
              end) tr.

(** How often the prompt [query] was shown. *)
Definition times_shown (query : string) (tr : list event) : nat :=
  length (omap (λ q, if String.eqb q query then Some q else None) (queries tr)).

(** The run was left at a prompt: the input ended before a line came. *)
Definition left_at_prompt (tr : list event) : bool :=
  match last tr with
  | Some (EvUnanswered _) => true
  | _ => false
  end.

(** The byte strings that were drawn, in order. *)
Definition random_draws (tr : list event) : list (list Byte.byte) :=
  omap (λ ev, match ev with EvRandom _ bytes => Some bytes | _ => None end) tr.

Definition starts_with (p s : string) : bool :=
  match Whsec.strip p s with Some _ => true | None => false end.

Definition head_is (p : ascii → bool) (s : string) : bool :=
  match s with
  | String c _ => p c
  | EmptyString => false
  end.

(** Neither the first nor the last character is white space. *)
Definition no_outer_space (s : string) : bool :=
  negb (head_is JsString.is_space s) && negb (head_is JsString.is_space (String.rev s)).

Definition all_steps : list step :=
  [Preflight; Provisioning; SecretCollection; WebhookRegistration;
   SecretGeneration; FileWrite].

(** The step a printed line is the banner of, if any. *)
Definition step_of_line (line : string) : option step :=
  find (λ s, String.eqb line (banner s)) all_steps.

(** The steps that started, in the order of their banners on the trace. *)
Definition steps_started (tr : list event) : list step :=
  omap (λ ev, match ev with EvLog line => step_of_line line | _ => None end) tr.

(** [console.log(line)] happened. *)
Definition printed (line : string) (tr : list event) : bool :=
  existsb (λ ev, match ev with EvLog l => String.eqb l line | _ => false end) tr.

Definition name_prompt : string := "Enter a name for your Turso database: ".
Definition success_line : string := "ðŸŽ‰ Setup completed successfully!".
Definition windows_hint : string :=
  "Note: On Windows, you may need to run this script as an administrator.".

(** An end of a step that is not a rejection: it returned, or the process
    exited with code 1. *)
Definition clean_exit {A} (o : outcome A) : bool :=
  match o with
  | Returned _ => true
  | Exited code => code =? 1
  | Thrown _ | Pending => false
  end.

(** The same for a step that asks the operator: it may also be left at a
    prompt, and only then does it not come back. *)
Definition clean_end {A} (r : outcome A * state) : bool :=
  match r.1 with
  | Returned _ => negb (left_at_prompt (trace r.2))
  | Exited code => (code =? 1) && negb (left_at_prompt (trace r.2))
  | Pending => left_at_prompt (trace r.2)
  | Thrown _ => false
  end.

(** The command lines [getTursoDatabaseInfo] and [checkTursoCLI] build for
    the database name [name]. *)
Definition turso_commands (name : string) : list string :=
  ["turso --version"; "turso db create " +:+ name;
   "turso db show " +:+ name +:+ " --url"].

(** The secrets found in the outputs of the webhook session. *)
Definition session_secrets (tr : list event) : list string :=
  omap (λ r, match r with ExecOk out _ => Whsec.match_ out | ExecFail _ => None end)
       (exec_results webhook_session tr).

(** The trimmed outputs of the URL queries that succeeded. *)
Definition fetched_urls (tr : list event) : list string :=
  omap (λ ev, match ev with
              | EvExec c (ExecOk out _) =>
                  if starts_with "turso db show " c then Some (JsString.trim out) else None
              | _ => None
              end) tr.

(** The pattern occurs in [s] right after [pre]. *)
Definition secret_at (pre s : string) : Prop :=
  ∃ run post,
    s = pre +:+ Whsec.prefix +:+ run +:+ post ∧ run ≠ EmptyString ∧
    JsString.all_chars JsString.is_alnum run = true.

(** [m] is the first occurrence of the pattern in [s], taken as long as it
    goes: no occurrence starts earlier, and what follows [m] does not start
    with an alphanumeric character. *)
Definition first_longest_secret (s m : string) : Prop :=
  ∃ pre run post,
    s = pre +:+ m +:+ post ∧ m = Whsec.prefix +:+ run ∧ run ≠ EmptyString ∧
    JsString.all_chars JsString.is_alnum run = true ∧
    head_is JsString.is_alnum post = false ∧
    ∀ pre', secret_at pre' s → (String.length pre ≤ String.length pre')%nat.

(** The value of a hexadecimal digit. *)
Definition hex_value (c : ascii) : N :=
  if JsString.code c <? 58 then JsString.code c - 48 else JsString.code c - 87.

Definition is_equals (c : ascii) : bool := JsString.code c =? 61.

(** A pair the text can be read back from: no "=" in the key, no newline in
    the value, and a key that is not an array index. *)
Definition plain_pair (kv : string * string) : bool :=
  negb (JsString.any_char is_equals kv.1) &&
  negb (JsString.contains_newline kv.2) &&
  match JsObject.array_index kv.1 with None => true | Some _ => false end.

(** What follows a value in the text: nothing, or a newline and the rest. *)
Definition text_tail (pairs : list (string * string)) : string :=
  match pairs with
  | [] => EmptyString
  | _ :: _ => String "010" (config_text pairs)
  end.

Module MoreSamples.

(** The database cannot be created. *)
Definition create_fails : env :=
  Samples.make (λ n cmd, if starts_with "turso db create" cmd
                         then ExecFail (Error "database already exists")
                         else Samples.tools_ok n cmd)
               (Samples.operator "R" "tok_1" "sk_test_123").

End MoreSamples.

(** ** Tactics: running the script symbolically *)

(** The reply a run is waiting for: the scrutinee under all the matches at
    the head of the term. *)
Ltac head_scrutinee t :=
  lazymatch t with
  | match ?x with _ => _ end => head_scrutinee x
  | (match ?x with _ => _ end) _ => head_scrutinee x
  | (match ?x with _ => _ end) _ _ => head_scrutinee x
  | _ => t
  end.

(** Running a computation up to the next reply of the environment. *)
Ltac run_to_reply H :=
  lazymatch type of H with
  | ?t = ?r =>
      let t' := eval lazy head beta iota zeta delta
        [script main main_envVars checkStripeCLI getTursoDatabaseInfo
         checkTursoCLI getStripeSecretKey createStripeWebhook generateAuthSecret
         writeEnvFile when try_catch throw process_exit console_log console_error
         execAsync question crypto_randomBytes fs_writeFile os_platform
         process_cwd mbind M_bind mret M_ret negb] in t in
      change (t' = r) in H
  end.

(** States, traces and command lines in normal form. *)
Ltac tidy_in H :=
  lazy beta iota zeta delta
    [record replied init trace files requests app String.append fst snd] in H.

(** Case analysis of a run [H : m E st = r], one reply of the environment
    after the other, until the run has ended on every branch. *)
Ltac run_cases H :=
  run_to_reply H; tidy_in H;
  lazymatch type of H with
  | ?t = _ =>
      let x := head_scrutinee t in
      lazymatch x with
      | (_, _) => idtac
      | _ => destruct x eqn:?; run_cases H
      end
  end.

(** All the runs of [m E st], each with its outcome and final state. *)
Ltac all_runs_of m E st :=
  let o := fresh "o" in let st' := fresh "st'" in let H := fresh "Hrun" in
  destruct (m E st) as [o st'] eqn:H;
  run_cases H; simplify_eq.

(** The same for a run that is already a hypothesis [H]. *)
Ltac all_runs H := run_cases H; simplify_eq.

(** The replies met on the way are put into the goal. *)
Ltac use_replies :=
  repeat match goal with
         | H : exec_reply _ _ _ = _ |- _ => rewrite ?H; clear H
         | H : answer _ _ _ = _ |- _ => rewrite ?H; clear H
         end.

(** The matches found on the way are put into the goal. *)
Ltac use_matches :=
  repeat match goal with
         | H : Whsec.match_ _ = _ |- _ => rewrite ?H; clear H
         end.

(** * Properties *)

(** ** Strings *)

Section StringFacts.
Import JsString.

Lemma append_assoc (a b c : string) : (a +:+ b) +:+ c = a +:+ b +:+ c.
Proof. induction a as [|x a IH]; simpl; [done|by rewrite IH]. Qed.

Lemma append_empty_r (a : string) : a +:+ EmptyString = a.
Proof. induction a as [|x a IH]; simpl; [done|by rewrite IH]. Qed.

Lemma is_empty_false (s : string) : is_empty s = false ↔ s ≠ EmptyString.
Proof. destruct s; simpl; split; congruence. Qed.

Lemma all_chars_append (p : ascii → bool) (a b : string) :
  all_chars p (a +:+ b) = all_chars p a && all_chars p b.
Proof. induction a as [|x a IH]; simpl; [done|]. by rewrite IH, andb_assoc. Qed.

(** A string made of characters none of which is a newline has none. *)
Lemma all_chars_no_newline (p : ascii → bool) (s : string) :
  (∀ c, p c = true → is_newline c = false) →
  all_chars p s = true → contains_newline s = false.
Proof.
  intros Hp. unfold contains_newline.
  induction s as [|c s IH]; simpl; [done|].
  intros [Hc Hs]%andb_true_iff. by rewrite (Hp c Hc), IH.
Qed.

Lemma alnum_not_newline (c : ascii) : is_alnum c = true → is_newline c = false.
Proof.
  unfold is_alnum, is_lower, is_upper, is_digit, is_newline.
  destruct (N.eqb_spec (code c) 10) as [->|]; [|done].
  by vm_compute.
Qed.

Lemma lower_hex_not_newline (c : ascii) : is_lower_hex c = true → is_newline c = false.
Proof.
  unfold is_lower_hex, is_digit, is_newline.
  destruct (N.eqb_spec (code c) 10) as [->|]; [|done].
  by vm_compute.
Qed.

Lemma single_line_no_newline (v : string) :
  single_line v = true → contains_newline v = false.
Proof. unfold single_line. by intros [_ ?%negb_true_iff]%andb_true_iff. Qed.

(** A line of input holds no newline. *)
Lemma line_no_newline (typed : string) : contains_newline (Readline.line typed) = false.
Proof.
  unfold contains_newline.
  induction typed as [|c t IH]; simpl; [done|].
  unfold Readline.is_terminator, is_newline in *.
  destruct (code c =? 10) eqn:Hc; simpl; [done|].
  destruct (code c =? 13); simpl; [done|]. by rewrite Hc.
Qed.

Lemma line_single_line (typed : string) :
  is_empty (Readline.line typed) = false → single_line (Readline.line typed) = true.
Proof. intros He. unfold single_line. by rewrite He, line_no_newline. Qed.

(** A line typed without a terminator is handed over as it is. *)
Lemma line_of_line (typed : string) :
  any_char Readline.is_terminator typed = false → Readline.line typed = typed.
Proof.
  induction typed as [|c t IH]; simpl; [done|].
  intros [-> Ht]%orb_false_iff. by rewrite IH.
Qed.

(** Only a letter and its capital have that letter as lowercase form. *)
Lemma toLowerCase_y (s : string) : toLowerCase s = "y" ↔ s = "y" ∨ s = "Y".
Proof.
  destruct s as [|x [|y s]]; simpl.
  - split; [done|intros [?|?]; done].
  - split; [|by intros [H|H]; simplify_eq].
    destruct x as [[] [] [] [] [] [] [] []]; intros H; vm_compute in H;
      try discriminate H; (by left) || (by right).
  - split; [done|intros [?|?]; done].
Qed.

Lemma toLowerCase_l (s : string) : toLowerCase s = "l" ↔ s = "l" ∨ s = "L".
Proof.
  destruct s as [|x [|y s]]; simpl.
  - split; [done|intros [?|?]; done].
  - split; [|by intros [H|H]; simplify_eq].
    destruct x as [[] [] [] [] [] [] [] []]; intros H; vm_compute in H;
      try discriminate H; (by left) || (by right).
  - split; [done|intros [?|?]; done].
Qed.

End StringFacts.

(** ** The webhook secret pattern *)

Section WhsecFacts.
Import JsString Whsec.

Lemma strip_Some (p s rest : string) : strip p s = Some rest ↔ s = p +:+ rest.
Proof.
  revert s. induction p as [|a p IH]; intros s; simpl.
  - split; congruence.
  - destruct s as [|b s]; [split; discriminate|].
    destruct (Ascii.eqb_spec a b) as [->|Hab].
    + rewrite IH. split; congruence.
    + split; [discriminate|congruence].
Qed.

Lemma take_alnum_all (s : string) : all_chars is_alnum (take_alnum s) = true.
Proof.
  induction s as [|c s IH]; simpl; [done|].
  destruct (is_alnum c) eqn:Hc; simpl; [by rewrite Hc|done].
Qed.

(** The run that is taken is a prefix of the text. *)
Lemma take_alnum_prefix (s : string) : ∃ post, s = take_alnum s +:+ post.
Proof.
  induction s as [|c s [post IH]]; simpl; [by exists EmptyString|].
  destruct (is_alnum c); simpl; [exists post; congruence|by eexists].
Qed.

(** A run that starts the text is not missed. *)
Lemma take_alnum_app (run post : string) :
  run ≠ EmptyString → all_chars is_alnum run = true → take_alnum (run +:+ post) ≠ EmptyString.
Proof.
  destruct run as [|c run]; [done|]. simpl.
  intros _ [Hc _]%andb_true_iff. by rewrite Hc.
Qed.

Lemma match_here_Some (s m : string) :
  match_here s = Some m →
  ∃ run post, s = prefix +:+ run +:+ post ∧ m = prefix +:+ run ∧
              run ≠ EmptyString ∧ all_chars is_alnum run = true.
Proof.
  unfold match_here. destruct (strip prefix s) as [rest|] eqn:Hs; [|done].
  apply strip_Some in Hs.
  destruct (take_alnum_prefix rest) as [post Hpost].
  pose proof (take_alnum_all rest) as Hall.
  destruct (take_alnum rest) as [|c run] eqn:Hrun; [done|].
  intros [= <-]. exists (String c run), post. by rewrite <- Hpost.
Qed.

Lemma match_here_None (s run post : string) :
  s = prefix +:+ run +:+ post → run ≠ EmptyString → all_chars is_alnum run = true →
  match_here s ≠ None.
Proof.
  intros Hs Hne Hall. unfold match_here.
  apply strip_Some in Hs. rewrite Hs.
  pose proof (take_alnum_app run post Hne Hall).
  by destruct (take_alnum (run +:+ post)).
Qed.

(** What [match_] returns is a secret that occurs in the text. *)
Lemma match_Some (s m : string) :
  match_ s = Some m →
  ∃ pre run post, s = pre +:+ prefix +:+ run +:+ post ∧ m = prefix +:+ run ∧
                  run ≠ EmptyString ∧ all_chars is_alnum run = true.
Proof.
  induction s as [|c s IH]; simpl.
  - discriminate.
  - destruct (match_here (String c s)) as [m'|] eqn:Hm.
    + intros [= <-]. apply match_here_Some in Hm as (run & post & ? & ? & ? & ?).
      by exists EmptyString, run, post.
    + intros (pre & run & post & -> & ? & ? & ?)%IH.
      by exists (String c pre), run, post.
Qed.

(** [match_] finds a secret exactly when the text has one. *)
Lemma match_None_iff (s : string) : match_ s = None ↔ ¬ has_secret s.
Proof.
  split.
  - intros Hnone (pre & run & post & Hs & Hne & Hall). revert s Hs Hnone.
    induction pre as [|c pre IH]; intros s Hs.
    + simpl in Hs. pose proof (match_here_None s run post Hs Hne Hall).
      destruct s; simpl; by destruct (match_here _).
    + simpl in Hs. subst s. simpl.
      destruct (match_here _); [done|]. by apply IH.
  - intros Hno. destruct (match_ s) as [m|] eqn:Hm; [|done].
    destruct Hno. apply match_Some in Hm as (pre & run & post & ? & ? & ? & ?).
    by exists pre, run, post.
Qed.

(** A matched secret fills one line. *)
Lemma match_single_line (s m : string) : match_ s = Some m → single_line m = true.
Proof.
  intros (pre & run & post & _ & -> & _ & Hall)%match_Some.
  pose proof (all_chars_no_newline is_alnum run alnum_not_newline Hall) as Hnl.
  unfold single_line, contains_newline in *. simpl. by rewrite Hnl.
Qed.

End WhsecFacts.

(** ** Hexadecimal encoding *)

Section HexFacts.
Import JsString.

Lemma hex_byte (b : Byte.byte) (rest : string) :
  all_chars is_lower_hex (Hex.of_byte b rest) = all_chars is_lower_hex rest.
Proof.
  unfold Hex.of_byte. cbn [all_chars].
  assert (is_lower_hex (Hex.digit (Byte.to_N b / 16)) = true) as ->
    by (destruct b; vm_compute; reflexivity).
  assert (is_lower_hex (Hex.digit (Byte.to_N b mod 16)) = true) as ->
    by (destruct b; vm_compute; reflexivity).
  done.
Qed.

Lemma hex_encode_lower (bytes : list Byte.byte) :
  all_chars is_lower_hex (Hex.encode bytes) = true.
Proof.
  induction bytes as [|b bytes IH]; [done|].
  change (Hex.encode (b :: bytes)) with (Hex.of_byte b (Hex.encode bytes)).
  by rewrite hex_byte.
Qed.


(** The encoding of at least one byte fills one line. *)
Lemma hex_encode_single_line (bytes : list Byte.byte) :
  bytes ≠ [] → single_line (Hex.encode bytes) = true.
Proof.
  intros Hne. unfold single_line.
  rewrite (all_chars_no_newline is_lower_hex _ lower_hex_not_newline
             (hex_encode_lower bytes)).
  by destruct bytes.
Qed.

End HexFacts.

(** ** Objects and their serialization *)

Section ObjectFacts.
Import JsString JsObject.

Lemma index_props_named (o : JsObject.t) :
  Forall (λ k, array_index k = None) (keys o) → index_props o = [].
Proof.
  unfold index_props, keys.
  induction o as [|[k v] o IH]; [done|].
  rewrite fmap_cons, Forall_cons. intros [Hk Ho].
  cbn [omap list_omap fst] in *. rewrite Hk. cbn [fmap option_fmap option_map].
  by apply IH.
Qed.

Lemma named_props_named (o : JsObject.t) :
  Forall (λ k, array_index k = None) (keys o) → named_props o = o.
Proof.
  unfold named_props, keys.
  induction o as [|[k v] o IH]; [done|].
  rewrite fmap_cons, Forall_cons. intros [Hk Ho].
  rewrite filter_cons_True by done. by rewrite IH.
Qed.

(** Without array-index keys, [Object.entries] is the creation order. *)
Lemma entries_named (o : JsObject.t) :
  Forall (λ k, array_index k = None) (keys o) → entries o = o.
Proof.
  intros Hk. unfold entries.
  by rewrite index_props_named, named_props_named.
Qed.

Lemma foldl_join_cons (sep x : string) (l : list string) :
  foldl (λ acc y, acc +:+ sep +:+ y) x l =
  x +:+ foldl (λ acc y, acc +:+ sep +:+ y) EmptyString l.
Proof.
  revert x. induction l as [|y l IH]; intros x; simpl.
  - by rewrite append_empty_r.
  - rewrite IH, (IH (sep +:+ y)). by rewrite !append_assoc.
Qed.

(** The joined lines are the text the specification describes. *)
Lemma join_lines (pairs : list (string * string)) :
  join "
" (env_line <$> pairs) = config_text pairs.
Proof.
  induction pairs as [|[k v] pairs IH]; [done|].
  destruct pairs as [|[k' v'] pairs]; [done|].
  revert IH. unfold join. cbn [fmap list_fmap foldl config_text].
  intros <-. unfold env_line at 1 2. cbn [fst snd].
  rewrite (foldl_join_cons _ (_ +:+ _ +:+ env_line (k', v'))).
  rewrite (foldl_join_cons _ (env_line (k', v'))).
  by rewrite !append_assoc.
Qed.

(** The text ends with the last value: nothing follows the last pair. *)
Lemma config_text_last (pairs : list (string * string)) (k v : string) :
  ∃ pre, config_text (pairs ++ [(k, v)]) = pre +:+ k +:+ "=" +:+ v.
Proof.
  induction pairs as [|[k' v'] pairs [pre IH]]; [by exists EmptyString|].
  exists (k' +:+ "=" +:+ v' +:+ "
" +:+ pre).
  cbn [app config_text]. rewrite IH.
  destruct (pairs ++ [(k, v)]) eqn:Hpairs; [by destruct pairs|].
  by rewrite !append_assoc.
Qed.

End ObjectFacts.

(** ** The steps on their own *)

Section Steps.
Import JsString.

(** X16.  The remediation prompt takes exactly the answers "y" and "Y" for
    a yes; anything else, the word "yes" included, counts as a no. *)
Lemma affirmative_iff (ans : string) : affirmative ans = true ↔ ans = "y" ∨ ans = "Y".
Proof.
  unfold affirmative, eqb. by rewrite String.eqb_eq, toLowerCase_y.
Qed.

(** X17.  The data-store prompt takes exactly the answers "l" and "L" for
    the local file; anything else, the empty answer included, chooses the
    remote database. *)
Lemma chooses_local_iff (ans : string) : chooses_local ans = true ↔ ans = "l" ∨ ans = "L".
Proof.
  unfold chooses_local, eqb. by rewrite String.eqb_eq, toLowerCase_l.
Qed.

Example empty_answer_is_remote : chooses_local EmptyString = false.
Proof. reflexivity. Qed.

Example word_local_is_remote : chooses_local "local" = false.
Proof. reflexivity. Qed.

Example word_yes_is_not_affirmative : affirmative "yes" = false.
Proof. reflexivity. Qed.

Example trim_padded_url :
  trim "  libsql://example.turso.io  
" = "libsql://example.turso.io".
Proof. reflexivity. Qed.

Example webhook_secret_found :
  Whsec.match_ "Ready! Your webhook signing secret is whsec_abc123 (^C to quit)"
    = Some "whsec_abc123".
Proof. reflexivity. Qed.

(** On a successful run every step but the last prints its banner. *)
Example banners_of_a_successful_run :
  (λ s, started s (trace (script Samples.remote_run (init ∅)).2)) <$>
    [Preflight; Provisioning; SecretCollection; WebhookRegistration;
     SecretGeneration; FileWrite]
  = [true; true; true; true; true; false].
Proof. by vm_compute. Qed.

(** The three ways through the remediation prompt. *)
Example login_confirmed :
  (checkStripeCLI (Samples.login_after "Y") (init ∅)).1 = Returned tt ∧
  exec_results auth_probe (trace (checkStripeCLI (Samples.login_after "Y") (init ∅)).2)
    = [ExecFail (Error "not logged in"); ExecOk EmptyString EmptyString].
Proof. by vm_compute. Qed.

Example login_declined :
  (checkStripeCLI (Samples.login_after "n") (init ∅)).1 = Exited 1 ∧
  exec_results auth_probe (trace (checkStripeCLI (Samples.login_after "n") (init ∅)).2)
    = [ExecFail (Error "not logged in")].
Proof. by vm_compute. Qed.

Example login_claimed_but_missing :
  (checkStripeCLI Samples.never_logged_in (init ∅)).1 = Exited 1 ∧
  exec_results auth_probe (trace (checkStripeCLI Samples.never_logged_in (init ∅)).2)
    = [ExecFail (Error "not logged in"); ExecFail (Error "not logged in")].
Proof. by vm_compute. Qed.

(** The registrar turns a session output without a secret into the
    extraction error, whatever the platform. *)
Lemma createStripeWebhook_no_secret (E : env) (st : state) (out err : string) :
  exec_reply E (requests st) webhook_session = ExecOk out err →
  Whsec.match_ out = None →
  (createStripeWebhook E st).1 = Thrown extraction_failure.
Proof.
  intros Hexec Hnone. unfold webhook_session in Hexec.
  destruct st as [tr fs n]; simpl in *.
  destruct (createStripeWebhook E _) as [o st'] eqn:Hrun.
  all_runs Hrun; done.
Qed.

(** A failure of the session command itself is thrown on as it is. *)
Lemma createStripeWebhook_rethrows (E : env) (st : state) (e : error) :
  exec_reply E (requests st) webhook_session = ExecFail e →
  (createStripeWebhook E st).1 = Thrown e.
Proof.
  intros Hexec. unfold webhook_session in Hexec.
  destruct st as [tr fs n]; simpl in *.
  destruct (createStripeWebhook E _) as [o st'] eqn:Hrun.
  all_runs Hrun; done.
Qed.

(** What the registrar returns is a secret found in the output. *)
Lemma createStripeWebhook_returns (E : env) (st st' : state) (secret : string) :
  createStripeWebhook E st = (Returned secret, st') →
  ∃ out err, exec_reply E (requests st) webhook_session = ExecOk out err ∧
             Whsec.match_ out = Some secret.
Proof.
  destruct st as [tr fs n]. intros Hrun. all_runs Hrun. eauto.
Qed.

End Steps.

(** ** The steps and the preflight *)

Section StepClaims.
Import JsString.


(** C10.  [getTursoDatabaseInfo] prints its banner and asks for the data
    store.  If the answer in lowercase is "l" it returns the fixed local
    record at once, with no further effect; for every other answer it
    goes on with [checkTursoCLI], whose first effects are its banner and
    the version probe of the database tool, and it never returns a local
    record.  If the input ends at the prompt there is no answer, and the
    function does not come back. *)
Theorem data_store_choice (E : env) (st : state) :
  let asked := record (EvLog (banner Provisioning)) st in
  let run := getTursoDatabaseInfo E st in
  match answer E (requests asked) choice_prompt with
  | None => run = (Pending, replied (EvUnanswered choice_prompt) asked)
  | Some typed =>
      let ans := Readline.line typed in
      let chosen := replied (EvAsk choice_prompt ans) asked in
      if chooses_local ans
      then run = (Returned (DbInfo "file:dev.db" false None), chosen)
      else
        match run.1 with
        | Returned info => isRemote info = true
        | _ => True
        end ∧
        ∃ reply rest,
          trace run.2 =
            trace chosen ++
            [EvLog "Checking if Turso CLI is installed..."; EvExec "turso --version" reply] ++
            rest
  end.
Proof.
  destruct st as [tr fs n]. cbn zeta.
  destruct (getTursoDatabaseInfo E _) as [o st'] eqn:Hrun.
  unfold chooses_local, choice_prompt.
  all_runs Hrun.
  all: cbn [record replied trace requests files banner] in *.
  all: rewrite ?Heqo, ?Heqo0.
  all: try reflexivity.
  all: rewrite Heqb.
  all: try reflexivity.
  all: split; [done|]; eexists _, _; cbn [fst snd trace].
  all: fold (@app event); rewrite <- !(app_assoc (A:=event)); reflexivity.
Qed.

(** C7.  If the version probe of the payment tool fails, the process
    exits with code 1 after printing the installation notes: none of the
    later steps starts, the probe is the only request made to the outside,
    and the file system is as before. *)
Theorem version_probe_failure_is_fatal (E : env) (fs : gmap string string) (e : error) :
  exec_reply E 0 version_probe = ExecFail e →
  (script E (init fs)).1 = Exited 1 ∧
  exit_status (script E (init fs)).1 = 1 ∧
  Forall (λ s, started s (trace (script E (init fs)).2) = false) later_steps ∧
  filter (λ ev, is_external ev = true) (trace (script E (init fs)).2)
    = [EvExec version_probe (ExecFail e)] ∧
  files (script E (init fs)).2 = fs.
Proof.
  intros Hprobe. unfold version_probe in *.
  destruct (script E (init fs)) as [o st] eqn:Hrun.
  all_runs Hrun.
  repeat split. repeat constructor.
Qed.

Lemma version_probe_failure_is_fatal_witness :
  (script Samples.no_stripe (init ∅)).1 = Exited 1 ∧
  exit_status (script Samples.no_stripe (init ∅)).1 = 1 ∧
  Forall (λ s, started s (trace (script Samples.no_stripe (init ∅)).2) = false)
         later_steps ∧
  filter (λ ev, is_external ev = true) (trace (script Samples.no_stripe (init ∅)).2)
    = [EvExec version_probe (ExecFail (Error "command not found"))] ∧
  files (script Samples.no_stripe (init ∅)).2 = ∅.
Proof.
  apply (version_probe_failure_is_fatal Samples.no_stripe ∅ (Error "command not found")).
  reflexivity.
Defined.

(** C5.  The authentication probe runs once when it succeeds (the
    operator is not asked) and never when the version probe has failed.
    When it fails, the remediation prompt is shown, once.  If the answer is
    not "y" or "Y" the process exits with code 1 and the probe is not run
    again; if it is, the probe is run exactly once more, and on a failure
    of that re-check the process exits with code 1, while on its success
    the run goes on to the next step.  If the input ends at the prompt
    there is no answer: the process is left waiting and the probe is not
    run again.  In no run is the probe run more than twice. *)
Theorem auth_check_single_recheck (E : env) (fs : gmap string string) :
  let run := script E (init fs) in
  let probes := exec_results auth_probe (trace run.2) in
  (length probes ≤ 2)%nat ∧
  match exec_reply E 0 version_probe with
  | ExecFail _ => probes = [] ∧ times_shown auth_prompt (trace run.2) = 0%nat
  | ExecOk _ _ =>
      match exec_reply E 1 auth_probe with
      | ExecOk out err =>
          probes = [ExecOk out err] ∧
          times_shown auth_prompt (trace run.2) = 0%nat ∧
          started Provisioning (trace run.2) = true
      | ExecFail e =>
          times_shown auth_prompt (trace run.2) = 1%nat ∧
          match answer E 2 auth_prompt with
          | None =>
              probes = [ExecFail e] ∧ run.1 = Pending ∧
              started Provisioning (trace run.2) = false
          | Some typed =>
              answers_to auth_prompt (trace run.2) = [Readline.line typed] ∧
              if affirmative (Readline.line typed)
              then
                probes = [ExecFail e; exec_reply E 3 auth_probe] ∧
                match exec_reply E 3 auth_probe with
                | ExecFail _ =>
                    run.1 = Exited 1 ∧
                    last_event (trace run.2) =
                      Some (EvError
                        [VStr "Failed to verify Stripe CLI authentication. Please try again."]) ∧
                    started Provisioning (trace run.2) = false
                | ExecOk _ _ => started Provisioning (trace run.2) = true
                end
              else
                probes = [ExecFail e] ∧ run.1 = Exited 1 ∧
                last_event (trace run.2) =
                  Some (EvLog "Please authenticate with Stripe CLI and run this script again.") ∧
                started Provisioning (trace run.2) = false
          end
      end
  end.
Proof.
  cbn zeta. unfold affirmative, version_probe, auth_probe, auth_prompt.
  all_runs_of script E (init fs).
  all: use_replies.
  all: cbn -[Nat.le eqb toLowerCase Readline.line].
  all: rewrite ?Heqb.
  all: repeat split; lia.
Qed.

(** X15.  No run of the script touches the file system: [writeEnvFile] is
    never reached. *)
Lemma script_never_writes (E : env) (fs : gmap string string) :
  files (script E (init fs)).2 = fs ∧
  existsb is_write (trace (script E (init fs)).2) = false ∧
  started FileWrite (trace (script E (init fs)).2) = false.
Proof.
  all_runs_of script E (init fs); by vm_compute.
Qed.

(** C1.  On the run in which every tool succeeds and the operator chooses
    the local data store, [main] assembles a configuration with all the
    mandatory keys and reports success, but the configuration writer never
    runs: no file is written and the file system stays empty. *)
Theorem successful_run_writes_nothing :
  let run := script Samples.local_run (init ∅) in
  run.1 = Returned tt ∧
  exit_status run.1 = 0 ∧
  match (main_envVars Samples.local_run (init ∅)).1 with
  | Returned envVars => JsObject.keys envVars = mandatory_keys
  | _ => False
  end ∧
  started SecretGeneration (trace run.2) = true ∧
  started FileWrite (trace run.2) = false ∧
  existsb is_write (trace run.2) = false ∧
  files run.2 = ∅.
Proof. by vm_compute. Qed.

End StepClaims.

(** ** The configuration writer *)

Section WriterClaims.
Import JsString.

(** [Object.entries] lists array-index keys first: the key "1" comes in
    front of the key "b" that was created before it.  No configuration key
    is an array index. *)
Example array_index_keys_are_written_first :
  Samples.indexed_config = [("b", "x"); ("1", "y")] ∧
  (writeEnvFile Samples.indexed_config Samples.local_run (init ∅)).1 = Returned tt ∧
  files (writeEnvFile Samples.indexed_config Samples.local_run (init ∅)).2
    !! "/app/.env" = Some "1=y
b=x" ∧
  config_text Samples.indexed_config = "b=x
1=y".
Proof. by vm_compute. Qed.

(** For a mapping none of whose keys is an array index, the text the
    writer builds is the text of the pairs in creation order. *)
Lemma envContent_named (o : JsObject.t) :
  Forall (λ k, JsObject.array_index k = None) (JsObject.keys o) →
  envContent o = config_text o.
Proof.
  intros Hkeys. unfold envContent. by rewrite (entries_named o Hkeys), join_lines.
Qed.

Lemma config_key_named (k : string) : k ∈ config_keys → JsObject.array_index k = None.
Proof.
  unfold config_keys, mandatory_keys. cbn [app]. intros Hk.
  repeat (apply elem_of_cons in Hk as [->|Hk]; [reflexivity|]).
  by apply elem_of_nil in Hk.
Qed.




(** The mapping of the sample remote run is the one written above. *)
Example remote_config_is_assembled :
  (main_envVars Samples.remote_run (init ∅)).1 = Returned Samples.remote_config.
Proof. by vm_compute. Qed.

Example local_config_text :
  config_text Samples.local_config = "TURSO_DATABASE_URL=file:dev.db
STRIPE_SECRET_KEY=sk_test_123
STRIPE_WEBHOOK_SECRET=whsec_abc123
BASE_URL=http://localhost:3000
AUTH_SECRET=00ff".
Proof. reflexivity. Qed.

End WriterClaims.

(** ** The assembled mapping *)

Section MappingClaims.
Import JsString.
Local Arguments Hex.encode : simpl never.

(** C3, as stated, fails when the operator chooses the remote data store
    and answers the token prompt with an empty line: the key is left out. *)
Lemma empty_token_leaves_key_out :
  match main_envVars Samples.remote_empty_token (init ∅) with
  | (Returned envVars, st) =>
      chose_remote (trace st) = true ∧
      answers_to token_prompt (trace st) = [EmptyString] ∧
      JsObject.has "TURSO_AUTH_TOKEN" envVars = false
  | _ => False
  end.
Proof. by vm_compute. Qed.

(** C3, amended.  In the mapping [main] assembles, the auth-token key is
    present exactly when the operator chose the remote data store and gave
    a non-empty token. *)
Theorem auth_token_key_iff (E : env) (fs : gmap string string)
    (envVars : JsObject.t) (st : state) :
  main_envVars E (init fs) = (Returned envVars, st) →
  JsObject.has "TURSO_AUTH_TOKEN" envVars =
    chose_remote (trace st) && gave_token (trace st).
Proof.
  intros Hrun. all_runs Hrun.
  all: cbn -[eqb toLowerCase Readline.line answer exec_reply is_empty Hex.encode].
  all: unfold chooses_local; rewrite ?Heqb, ?Heqb0, ?Heqb1; cbn [negb andb orb].
  all: try reflexivity.
  all: destruct (is_empty _); reflexivity.
Qed.

Lemma auth_token_key_iff_witness :
  let run := main_envVars Samples.remote_run (init ∅) in
  match run.1 with
  | Returned envVars =>
      JsObject.has "TURSO_AUTH_TOKEN" envVars =
        chose_remote (trace run.2) && gave_token (trace run.2)
  | _ => False
  end.
Proof.
  intros run.
  destruct run as [[envVars| | |] st] eqn:Hrun; [|discriminate Hrun..].
  exact (auth_token_key_iff Samples.remote_run ∅ envVars st Hrun).
Defined.

(** X10.  Every mapping [main] assembles has the mandatory keys, in the
    order of the object literal, and the auth-token key after them when
    present. *)
Lemma assembled_keys (E : env) (fs : gmap string string)
    (envVars : JsObject.t) (st : state) :
  main_envVars E (init fs) = (Returned envVars, st) →
  JsObject.keys envVars =
    mandatory_keys ++
    (if JsObject.has "TURSO_AUTH_TOKEN" envVars then ["TURSO_AUTH_TOKEN"] else []).
Proof.
  intros Hrun. all_runs Hrun.
  all: cbn -[eqb toLowerCase Readline.line answer exec_reply is_empty Hex.encode].
  all: try reflexivity.
  all: destruct (is_empty _); reflexivity.
Qed.

(** The mappings [main] assembles are mappings over the configuration
    keys, so the writer would put their pairs in creation order. *)
Lemma assembled_keys_are_config_keys (E : env) (fs : gmap string string)
    (envVars : JsObject.t) (st : state) :
  main_envVars E (init fs) = (Returned envVars, st) →
  Forall (λ k, k ∈ config_keys) (JsObject.keys envVars).
Proof.
  intros Hrun. all_runs Hrun.
  all: cbn -[eqb toLowerCase Readline.line answer exec_reply is_empty Hex.encode elem_of].
  all: try (destruct (is_empty _);
            cbn -[eqb toLowerCase Readline.line answer exec_reply is_empty Hex.encode
                  elem_of]).
  all: apply (bool_decide_unpack _); by vm_compute.
Qed.

Lemma assembled_text (E : env) (fs : gmap string string)
    (envVars : JsObject.t) (st : state) :
  main_envVars E (init fs) = (Returned envVars, st) →
  envContent envVars = config_text envVars.
Proof.
  intros Hrun%assembled_keys_are_config_keys. apply envContent_named.
  eapply Forall_impl; [exact Hrun|]. apply config_key_named.
Qed.

(** C9, as stated, fails: the secret key is the line the operator
    typed, so an empty line gives an empty value; and the URL of the remote
    data store is the trimmed output of the database tool, which keeps a
    newline between two lines of output and is empty when the tool prints
    nothing but white space. *)
Lemma values_can_be_empty_or_multiline :
  match (main_envVars Samples.empty_key (init ∅)).1 with
  | Returned envVars => JsObject.get "STRIPE_SECRET_KEY" envVars = Some EmptyString
  | _ => False
  end ∧
  match (main_envVars Samples.chatty_turso (init ∅)).1 with
  | Returned envVars =>
      JsObject.get "TURSO_DATABASE_URL" envVars = Some "update available
libsql://example.turso.io"
  | _ => False
  end ∧
  match (main_envVars Samples.silent_turso (init ∅)).1 with
  | Returned envVars => JsObject.get "TURSO_DATABASE_URL" envVars = Some EmptyString
  | _ => False
  end.
Proof. by vm_compute. Qed.

(** C9, amended.  In the mapping [main] assembles, every value other than
    the secret key and the URL of the remote data store fills exactly one
    line (it is not empty and holds no newline), and no value other than
    the URL of the remote data store holds a newline.  The secret key is
    the line the operator typed, which may be empty; the URL of the remote
    data store is the trimmed output of the URL query, and the URL of the
    local one is the fixed "file:dev.db". *)
Theorem assembled_values (E : env) (fs : gmap string string)
    (envVars : JsObject.t) (st : state) :
  main_envVars E (init fs) = (Returned envVars, st) →
  let remote_url (k : string) :=
    k = "TURSO_DATABASE_URL" ∧ chose_remote (trace st) = true in
  Forall (λ kv, kv.1 = "STRIPE_SECRET_KEY" ∨ remote_url kv.1 ∨ single_line kv.2 = true)
         envVars ∧
  Forall (λ kv, remote_url kv.1 ∨ contains_newline kv.2 = false) envVars ∧
  option_list (JsObject.get "STRIPE_SECRET_KEY" envVars) =
    answers_to key_prompt (trace st) ∧
  option_list (JsObject.get "TURSO_DATABASE_URL" envVars) =
    (if chose_remote (trace st) then fetched_urls (trace st) else ["file:dev.db"]).
Proof.
  intros Hrun. cbn zeta. all_runs Hrun.
  all: cbn -[eqb toLowerCase Readline.line answer exec_reply is_empty Hex.encode single_line
             contains_newline entropy seq trim Whsec.match_].
  all: unfold chooses_local; rewrite ?Heqb, ?Heqb0, ?Heqb1.
  all: try (destruct (is_empty _) eqn:Hempty;
            cbn -[eqb toLowerCase Readline.line answer exec_reply is_empty Hex.encode
                  single_line contains_newline entropy seq trim Whsec.match_]).
  all: repeat match goal with
       | H : Whsec.match_ _ = Some _ |- _ =>
           pose proof (match_single_line _ _ H); clear H
       end.
  all: (split; [|split]);
         [repeat apply Forall_cons_2; [..|apply Forall_nil_2]; cbn [fst snd]..|done].
  all: try (by left).
  all: try (by right; left).
  all: try (right; right); try right.
  all: try done.
  all: first [ by apply hex_encode_single_line
             | by apply single_line_no_newline, hex_encode_single_line
             | by apply single_line_no_newline
             | apply line_no_newline
             | by apply line_single_line ].
Qed.

Lemma assembled_values_witness :
  let run := main_envVars Samples.remote_run (init ∅) in
  match run.1 with
  | Returned envVars =>
      let remote_url (k : string) :=
        k = "TURSO_DATABASE_URL" ∧ chose_remote (trace run.2) = true in
      Forall (λ kv, kv.1 = "STRIPE_SECRET_KEY" ∨ remote_url kv.1 ∨ single_line kv.2 = true)
             envVars ∧
      Forall (λ kv, remote_url kv.1 ∨ contains_newline kv.2 = false) envVars ∧
      option_list (JsObject.get "STRIPE_SECRET_KEY" envVars) =
        answers_to key_prompt (trace run.2) ∧
      option_list (JsObject.get "TURSO_DATABASE_URL" envVars) =
        (if chose_remote (trace run.2) then fetched_urls (trace run.2)
         else ["file:dev.db"])
  | _ => False
  end.
Proof.
  intros run.
  destruct run as [[envVars| | |] st] eqn:Hrun; [|discriminate Hrun..].
  exact (assembled_values Samples.remote_run ∅ envVars st Hrun).
Defined.

End MappingClaims.

(** ** Failures *)

Section FailureClaims.
Import JsString.

(** C2, as stated, fails on the message: on a session output without a
    secret the registrar raises "Failed to extract Stripe webhook secret",
    which is not the message the claim gives. *)
Lemma extraction_message_names_stripe :
  exec_reply Samples.no_secret 0 webhook_session = ExecOk "Ready! whsec_ (^C to quit)" EmptyString ∧
  Whsec.match_ "Ready! whsec_ (^C to quit)" = None ∧
  (createStripeWebhook Samples.no_secret (init ∅)).1 =
    Thrown (Error "Failed to extract Stripe webhook secret") ∧
  (createStripeWebhook Samples.no_secret (init ∅)).1 ≠
    Thrown (Error "Failed to extract webhook secret").
Proof. by vm_compute. Qed.

(** C2, amended.  If the run reaches the webhook session and its captured
    output contains no substring made of [whsec_] and one or more
    alphanumeric characters, the registrar raises the error with message
    "Failed to extract Stripe webhook secret"; [main] ends with that error,
    the top-level handler prints it as the last thing the process does,
    the secret generator never starts, and no file is written or
    modified. *)
Theorem missing_secret_is_fatal (E : env) (fs : gmap string string) (out err : string) :
  exec_results webhook_session (trace (script E (init fs)).2) = [ExecOk out err] →
  ¬ Whsec.has_secret out →
  (main E (init fs)).1 = Thrown extraction_failure ∧
  extraction_failure = Error "Failed to extract Stripe webhook secret" ∧
  (script E (init fs)).1 = Returned tt ∧
  last_event (trace (script E (init fs)).2) = Some (EvError [VErr extraction_failure]) ∧
  started SecretGeneration (trace (script E (init fs)).2) = false ∧
  existsb is_write (trace (script E (init fs)).2) = false ∧
  files (script E (init fs)).2 = fs.
Proof.
  intros Hout Hnone%match_None_iff.
  unfold script, try_catch in *.
  destruct (main E (init fs)) as [o st] eqn:Hrun.
  run_cases Hrun; simplify_eq.
  all: cbn -[Whsec.match_] in Hout; simplify_eq.
  all: by vm_compute.
Qed.

Lemma missing_secret_is_fatal_witness :
  let E := Samples.no_secret in
  let fs : gmap string string := ∅ in
  (main E (init fs)).1 = Thrown extraction_failure ∧
  extraction_failure = Error "Failed to extract Stripe webhook secret" ∧
  (script E (init fs)).1 = Returned tt ∧
  last_event (trace (script E (init fs)).2) = Some (EvError [VErr extraction_failure]) ∧
  started SecretGeneration (trace (script E (init fs)).2) = false ∧
  existsb is_write (trace (script E (init fs)).2) = false ∧
  files (script E (init fs)).2 = fs.
Proof.
  intros E fs.
  apply (missing_secret_is_fatal E fs "Ready! whsec_ (^C to quit)" EmptyString).
  - reflexivity.
  - apply match_None_iff. reflexivity.
Defined.



(** The handled rejection of the sample run without a secret, and a
    failed write under a read-only directory. *)
Example extraction_error_is_handled :
  (main Samples.no_secret_read_only (init ∅)).1 = Thrown extraction_failure ∧
  last_event (trace (script Samples.no_secret_read_only (init ∅)).2) =
    Some (EvError [VErr extraction_failure]) ∧
  exit_status (script Samples.no_secret_read_only (init ∅)).1 = 0 ∧
  (writeEnvFile Samples.local_config Samples.no_secret_read_only (init ∅)).1 =
    Thrown (Error "EACCES: permission denied").
Proof. by vm_compute. Qed.

End FailureClaims.

(** * Further properties *)

(** ** Whole runs *)

Section RunProperties.
Import JsString.

(** X1.  [checkStripeCLI], [checkTursoCLI] and [getTursoDatabaseInfo] never
    end with a rejection, from any state and in any environment.
    [checkTursoCLI] returns or ends the process with exit code 1.  The two
    that ask the operator do the same, or are left at a prompt when the
    input has ended; they are left at a prompt exactly when they do not
    come back. *)
Theorem preflight_and_provisioning_never_throw (E : env) (st : state) :
  clean_end (checkStripeCLI E st) = true ∧
  clean_exit (checkTursoCLI E st).1 = true ∧
  clean_end (getTursoDatabaseInfo E st) = true.
Proof.
  destruct st as [tr fs n]. unfold clean_end, left_at_prompt. repeat split.
  - destruct (checkStripeCLI E _) as [o st'] eqn:Hrun. all_runs Hrun.
    all: cbn [fst snd trace]; fold (@app event).
    all: by rewrite ?app_assoc, last_snoc.
  - destruct (checkTursoCLI E _) as [o st'] eqn:Hrun. all_runs Hrun; done.
  - destruct (getTursoDatabaseInfo E _) as [o st'] eqn:Hrun. all_runs Hrun.
    all: cbn [fst snd trace]; fold (@app event).
    all: by rewrite ?app_assoc, last_snoc.
Qed.

(** X2.  If a command of the database tool fails (its version probe, the
    creation of the database or the query for its URL), the process exits
    with code 1; that command is the last one run, the token prompt is never
    shown, and no later step starts. *)
Theorem failed_turso_command_is_fatal (E : env) (fs : gmap string string) :
  existsb (starts_with "turso") (failed_commands (trace (script E (init fs)).2)) = true →
  (script E (init fs)).1 = Exited 1 ∧
  last (commands (trace (script E (init fs)).2)) =
    last (failed_commands (trace (script E (init fs)).2)) ∧
  answers_to token_prompt (trace (script E (init fs)).2) = [] ∧
  Forall (λ s, started s (trace (script E (init fs)).2) = false)
         [SecretCollection; WebhookRegistration; SecretGeneration; FileWrite].
Proof.
  all_runs_of script E (init fs).
  all: cbn -[Readline.line answer].
  all: try discriminate.
  all: intros _; repeat split; repeat constructor.
Qed.

Lemma failed_turso_command_is_fatal_witness :
  let E := MoreSamples.create_fails in
  let fs : gmap string string := ∅ in
  (script E (init fs)).1 = Exited 1 ∧
  last (commands (trace (script E (init fs)).2)) =
    last (failed_commands (trace (script E (init fs)).2)) ∧
  answers_to token_prompt (trace (script E (init fs)).2) = [] ∧
  Forall (λ s, started s (trace (script E (init fs)).2) = false)
         [SecretCollection; WebhookRegistration; SecretGeneration; FileWrite].
Proof.
  intros E fs. apply (failed_turso_command_is_fatal E fs). by vm_compute.
Defined.

(** X6.  In a run in which [main] gets to assemble the mapping, the commands
    run are: the version probe; the authentication probe, once when it
    succeeds at first and twice when it fails at first; on the remote path
    the three commands of the database tool with the operator's database
    name put into the command line as it was typed; and the webhook
    session.  On the local path no command of the database tool runs. *)
Theorem commands_of_a_successful_run (E : env) (fs : gmap string string)
    (envVars : JsObject.t) (st : state) :
  main_envVars E (init fs) = (Returned envVars, st) →
  commands (trace st) =
    version_probe
    :: match exec_reply E 1 auth_probe with
       | ExecOk _ _ => [auth_probe]
       | ExecFail _ => [auth_probe; auth_probe]
       end
    ++ flat_map turso_commands (answers_to name_prompt (trace st))
    ++ [webhook_session] ∧
  length (answers_to name_prompt (trace st)) =
    (if chose_remote (trace st) then 1 else 0)%nat.
Proof.
  intros Hrun. unfold auth_probe. all_runs Hrun.
  all: use_replies.
  all: cbn -[eqb toLowerCase Readline.line is_empty Hex.encode].
  all: unfold chooses_local; rewrite ?Heqb, ?Heqb0, ?Heqb1.
  all: done.
Qed.

(** X3.  The steps start in their fixed order and none is skipped: in every
    run the banners on the trace are the first [k] of the six, with [k]
    between 1 and 5. *)
Theorem steps_run_in_order (E : env) (fs : gmap string string) :
  ∃ k, (1 ≤ k ≤ 5)%nat ∧
       steps_started (trace (script E (init fs)).2) = take k all_steps.
Proof.
  all_runs_of script E (init fs).
  all: cbn -[Readline.line answer take].
  all: first [ exists 1%nat; split; [lia|reflexivity]
             | exists 2%nat; split; [lia|reflexivity]
             | exists 3%nat; split; [lia|reflexivity]
             | exists 4%nat; split; [lia|reflexivity]
             | exists 5%nat; split; [lia|reflexivity] ].
Qed.

(** X4.  The script never ends with an unhandled rejection, and the way it
    ends can be read off what happened.  If the input ended at a prompt the
    process is left waiting and ends with status 0.  Otherwise the exit
    status is 1 exactly when the run stopped before the webhook step: once
    that step has started the script runs to its end and the status is 0,
    whether the step succeeds or not. *)
Theorem exit_status_of_the_script (E : env) (fs : gmap string string) :
  let run := script E (init fs) in
  run.1 =
    (if left_at_prompt (trace run.2) then Pending
     else if started WebhookRegistration (trace run.2) then Returned tt
     else Exited 1) ∧
  exit_status run.1 =
    (if left_at_prompt (trace run.2) || started WebhookRegistration (trace run.2)
     then 0 else 1) ∧
  (left_at_prompt (trace run.2) = true →
   started WebhookRegistration (trace run.2) = false).
Proof.
  cbn zeta. all_runs_of script E (init fs); by vm_compute.
Qed.

(** When the input ends at the first prompt of a run in which every tool
    works, the process ends with status 0 and nothing is assembled. *)
Example end_of_input_exits_zero :
  (script Samples.input_ends (init ∅)).1 = Pending ∧
  exit_status (script Samples.input_ends (init ∅)).1 = 0 ∧
  last_event (trace (script Samples.input_ends (init ∅)).2) =
    Some (EvUnanswered choice_prompt) ∧
  started SecretCollection (trace (script Samples.input_ends (init ∅)).2) = false.
Proof. by vm_compute. Qed.

(** X5.  The success line is printed exactly in the runs in which the secret
    generator started, and the Windows hint exactly in the runs in which
    [main] ends with an error and the platform is "win32". *)
Theorem closing_lines_of_the_script (E : env) (fs : gmap string string) :
  let run := script E (init fs) in
  printed success_line (trace run.2) = started SecretGeneration (trace run.2) ∧
  printed windows_hint (trace run.2) =
    match (main E (init fs)).1 with
    | Thrown _ => eqb (platform E) "win32"
    | _ => false
    end.
Proof.
  cbn zeta. unfold script, try_catch.
  all_runs_of main E (init fs).
  all: cbn -[Readline.line answer platform eqb]; rewrite ?Heqb, ?Heqb0, ?Heqb1, ?Heqb2, ?Heqb3; done.
Qed.

Lemma commands_of_a_successful_run_witness :
  let run := main_envVars (Samples.login_after "Y") (init ∅) in
  match run.1 with
  | Returned envVars =>
      commands (trace run.2) =
        version_probe
        :: match exec_reply (Samples.login_after "Y") 1 auth_probe with
           | ExecOk _ _ => [auth_probe]
           | ExecFail _ => [auth_probe; auth_probe]
           end
        ++ flat_map turso_commands (answers_to name_prompt (trace run.2))
        ++ [webhook_session] ∧
      length (answers_to name_prompt (trace run.2)) =
        (if chose_remote (trace run.2) then 1 else 0)%nat
  | _ => False
  end.
Proof.
  intros run.
  destruct run as [[envVars| | |] st] eqn:Hrun; [|discriminate Hrun..].
  exact (commands_of_a_successful_run (Samples.login_after "Y") ∅ envVars st Hrun).
Defined.

(** X7.  In a run in which [main] gets to assemble the mapping, the prompts
    are shown in this order, each at most once: the remediation prompt if
    the authentication probe ran twice, the data-store choice, on the remote
    path the database name and the token, and last the secret key. *)
Theorem prompts_of_a_successful_run (E : env) (fs : gmap string string)
    (envVars : JsObject.t) (st : state) :
  main_envVars E (init fs) = (Returned envVars, st) →
  queries (trace st) =
    (if (1 <? length (exec_results auth_probe (trace st)))%nat then [auth_prompt] else [])
    ++ [choice_prompt]
    ++ (if chose_remote (trace st) then [name_prompt; token_prompt] else [])
    ++ [key_prompt].
Proof.
  intros Hrun. all_runs Hrun.
  all: cbn -[eqb toLowerCase Readline.line answer exec_reply is_empty Hex.encode].
  all: unfold chooses_local; rewrite ?Heqb, ?Heqb0, ?Heqb1.
  all: done.
Qed.

Lemma prompts_of_a_successful_run_witness :
  let run := main_envVars (Samples.login_after "y") (init ∅) in
  match run.1 with
  | Returned envVars =>
      queries (trace run.2) =
        (if (1 <? length (exec_results auth_probe (trace run.2)))%nat
         then [auth_prompt] else [])
        ++ [choice_prompt]
        ++ (if chose_remote (trace run.2) then [name_prompt; token_prompt] else [])
        ++ [key_prompt]
  | _ => False
  end.
Proof.
  intros run.
  destruct run as [[envVars| | |] st] eqn:Hrun; [|discriminate Hrun..].
  exact (prompts_of_a_successful_run (Samples.login_after "y") ∅ envVars st Hrun).
Defined.

End RunProperties.

(** ** The webhook secret *)

Section SecretProperties.
Import JsString Whsec.

Lemma take_alnum_maximal (s : string) :
  ∃ post, s = take_alnum s +:+ post ∧ head_is is_alnum post = false.
Proof.
  induction s as [|c s (post & IH & Hpost)]; simpl; [by exists EmptyString|].
  destruct (is_alnum c) eqn:Hc; simpl.
  - exists post. split; [congruence|done].
  - exists (String c s). by simpl.
Qed.

Lemma match_here_greedy (s m : string) :
  match_here s = Some m →
  ∃ run post, s = prefix +:+ run +:+ post ∧ m = prefix +:+ run ∧
              run ≠ EmptyString ∧ all_chars is_alnum run = true ∧
              head_is is_alnum post = false.
Proof.
  unfold match_here. destruct (strip prefix s) as [rest|] eqn:Hs; [|done].
  apply strip_Some in Hs.
  destruct (take_alnum_maximal rest) as (post & Hrest & Hpost).
  pose proof (take_alnum_all rest) as Hall.
  destruct (take_alnum rest) as [|c run] eqn:Hrun; [done|].
  intros [= <-]. exists (String c run), post. by rewrite <- Hrest.
Qed.

Lemma match_first_longest (s m : string) :
  match_ s = Some m → first_longest_secret s m.
Proof.
  revert m. induction s as [|c s IH]; intros m; simpl; [discriminate|].
  destruct (match_here (String c s)) as [m'|] eqn:Hm.
  - intros [= <-].
    apply match_here_greedy in Hm as (run & post & Hs & -> & ? & ? & ?).
    exists EmptyString, run, post. rewrite append_assoc.
    repeat split; try done. intros; simpl; lia.
  - intros (pre & run & post & -> & -> & ? & ? & ? & Hfirst)%IH.
    exists (String c pre), run, post. repeat split; try done.
    intros [|c' pre'] (run' & post' & Hs & Hne & Hall).
    + by destruct (match_here_None _ run' post' Hs Hne Hall).
    + simpl in Hs. injection Hs as -> Hs.
      assert (secret_at pre' (pre +:+ (prefix +:+ run) +:+ post)) as Hat
        by (by exists run', post').
      apply Hfirst in Hat. simpl. lia.
Qed.

(** X8.  A secret that [createStripeWebhook] returns is the first occurrence
    of the pattern in the output of the session command, taken as long as
    it goes: no occurrence starts earlier and the next character is not
    alphanumeric. *)
Theorem webhook_secret_is_first_and_longest (E : env) (st st' : state) (secret : string) :
  createStripeWebhook E st = (Returned secret, st') →
  ∃ out err, exec_reply E (requests st) webhook_session = ExecOk out err ∧
             first_longest_secret out secret.
Proof.
  intros (out & err & Hexec & Hm)%createStripeWebhook_returns.
  exists out, err. split; [done|]. by apply match_first_longest.
Qed.

Lemma webhook_secret_is_first_and_longest_witness :
  ∃ out err, exec_reply Samples.local_run (requests (init ∅)) webhook_session
               = ExecOk out err ∧
             first_longest_secret out "whsec_abc123".
Proof.
  apply (webhook_secret_is_first_and_longest Samples.local_run (init ∅)
           (createStripeWebhook Samples.local_run (init ∅)).2 "whsec_abc123").
  by vm_compute.
Defined.

End SecretProperties.

(** ** The auth secret *)

Section HexProperties.
Import JsString.

Lemma hex_value_digit (n : N) : n < 16 → hex_value (Hex.digit n) = n.
Proof.
  intros Hn.
  assert (n ∈ (N.of_nat <$> seq 0 16)) as Hin.
  { apply list_elem_of_fmap. exists (N.to_nat n). split; [lia|].
    apply elem_of_seq. lia. }
  cbn in Hin. set_unfold in Hin. 
  repeat (destruct Hin as [->|Hin]; [reflexivity|]). done.
Qed.

Lemma of_byte_inj (b b' : Byte.byte) (r r' : string) :
  Hex.of_byte b r = Hex.of_byte b' r' → b = b' ∧ r = r'.
Proof.
  unfold Hex.of_byte. intros [= Hhi Hlo ->]. split; [|done].
  pose proof (Byte.to_N_bounded b). pose proof (Byte.to_N_bounded b').
  apply (f_equal hex_value) in Hhi, Hlo.
  rewrite !hex_value_digit in Hhi, Hlo
    by (first [apply N.mod_lt; lia | apply N.Div0.div_lt_upper_bound; lia]).
  assert (Byte.to_N b = Byte.to_N b') as Hn.
  { rewrite (N.div_mod (Byte.to_N b) 16), (N.div_mod (Byte.to_N b') 16) by lia.
    by rewrite Hhi, Hlo. }
  apply (f_equal Byte.of_N) in Hn. rewrite !Byte.of_to_N in Hn. congruence.
Qed.

Lemma hex_encode_inj (a b : list Byte.byte) : Hex.encode a = Hex.encode b ↔ a = b.
Proof.
  split; [|by intros ->].
  revert b. induction a as [|x a IH]; intros [|y b]; try done.
  change (Hex.of_byte x (Hex.encode a) = Hex.of_byte y (Hex.encode b) → x :: a = y :: b).
  intros [-> ->%IH]%of_byte_inj. done.
Qed.

(** X9.  [generateAuthSecret] loses nothing of the draw: two calls return
    the same secret exactly when they drew the same 32 bytes. *)
Theorem auth_secret_keeps_the_draw (E E' : env) (st st' : state) :
  (generateAuthSecret E st).1 = (generateAuthSecret E' st').1 ↔
  entropy E (requests st) <$> seq 0 32 = entropy E' (requests st') <$> seq 0 32.
Proof.
  change ((generateAuthSecret E st).1)
    with (Returned (A:=string) (Hex.encode (entropy E (requests st) <$> seq 0 32))).
  change ((generateAuthSecret E' st').1)
    with (Returned (A:=string) (Hex.encode (entropy E' (requests st') <$> seq 0 32))).
  rewrite <- hex_encode_inj. split; congruence.
Qed.

End HexProperties.

(** ** The text of the configuration *)

Section TextProperties.
Import JsString.

Lemma split_at_char (p : ascii → bool) (c : ascii) (a a' r r' : string) :
  p c = true → any_char p a = false → any_char p a' = false →
  a +:+ String c r = a' +:+ String c r' → a = a' ∧ r = r'.
Proof.
  intros Hc. revert a'. induction a as [|x a IH]; intros [|x' a']; simpl.
  - by intros _ _ [= ->].
  - intros _ [Hx _]%orb_false_iff [= <- _]. congruence.
  - intros [Hx _]%orb_false_iff _ [= -> _]. congruence.
  - intros [_ Ha]%orb_false_iff [_ Ha']%orb_false_iff [= -> Hrest].
    by destruct (IH a' Ha Ha' Hrest) as [-> ->].
Qed.

Lemma config_text_cons (k v : string) (pairs : list (string * string)) :
  config_text ((k, v) :: pairs) = k +:+ String "=" (v +:+ text_tail pairs).
Proof.
  destruct pairs as [|[k' v'] pairs]; simpl; [by rewrite append_empty_r|done].
Qed.

Lemma value_then_tail (v v' : string) (ps ps' : list (string * string)) :
  contains_newline v = false → contains_newline v' = false →
  v +:+ text_tail ps = v' +:+ text_tail ps' → v = v' ∧ text_tail ps = text_tail ps'.
Proof.
  unfold contains_newline.
  revert v'. induction v as [|x v IH]; intros [|x' v']; simpl.
  - done.
  - intros _ [Hx _]%orb_false_iff. destruct ps; [done|]. simpl.
    intros [= <- _]. done.
  - intros [Hx _]%orb_false_iff _. destruct ps'; [done|]. simpl.
    intros [= -> _]. done.
  - intros [_ Hv]%orb_false_iff [_ Hv']%orb_false_iff [= -> Hrest].
    by destruct (IH v' Hv Hv' Hrest) as [-> ->].
Qed.

Lemma config_text_inj (ps ps' : list (string * string)) :
  forallb plain_pair ps = true → forallb plain_pair ps' = true →
  config_text ps = config_text ps' → ps = ps'.
Proof.
  revert ps'. induction ps as [|[k v] ps IH]; intros [|[k' v'] ps'].
  - done.
  - intros _ _. rewrite config_text_cons. destruct k'; discriminate.
  - intros _ _. rewrite config_text_cons. destruct k; discriminate.
  - cbn [forallb]. unfold plain_pair at 1 3. cbn [fst snd].
    intros [[[Hk Hv]%andb_true_iff _]%andb_true_iff Hps]%andb_true_iff.
    intros [[[Hk' Hv']%andb_true_iff _]%andb_true_iff Hps']%andb_true_iff.
    apply negb_true_iff in Hk, Hv, Hk', Hv'.
    rewrite !config_text_cons.
    intros [-> Hrest]%(split_at_char is_equals); [|done..].
    apply value_then_tail in Hrest as [-> Htail]; [|done..].
    f_equal. apply IH; [done..|].
    destruct ps, ps'; try done. by injection Htail.
Qed.

Lemma plain_keys (o : JsObject.t) :
  forallb plain_pair o = true →
  Forall (λ k, JsObject.array_index k = None) (JsObject.keys o).
Proof.
  unfold JsObject.keys. induction o as [|[k v] o IH]; [constructor|].
  cbn [forallb]. intros [[_ Hk]%andb_true_iff Ho]%andb_true_iff.
  rewrite fmap_cons. constructor; [|by apply IH].
  cbn [fst] in *. by destruct (JsObject.array_index k).
Qed.

(** X13.  The text [writeEnvFile] builds determines the mapping: two
    mappings whose keys hold no "=" and are not array indices, and whose
    values hold no newline, have the same text only if they are equal. *)
Theorem written_text_determines_the_mapping (o o' : JsObject.t) :
  forallb plain_pair o = true → forallb plain_pair o' = true →
  envContent o = envContent o' → o = o'.
Proof.
  intros Ho Ho'. unfold envContent.
  rewrite (entries_named o), (entries_named o') by by apply plain_keys.
  rewrite !join_lines. by apply config_text_inj.
Qed.

Lemma written_text_determines_the_mapping_witness :
  Samples.local_config =
    [("TURSO_DATABASE_URL", "file:dev.db"); ("STRIPE_SECRET_KEY", "sk_test_123");
     ("STRIPE_WEBHOOK_SECRET", "whsec_abc123"); ("BASE_URL", "http://localhost:3000");
     ("AUTH_SECRET", "00ff")].
Proof.
  apply written_text_determines_the_mapping; reflexivity.
Defined.

Example newline_in_value_is_ambiguous :
  envContent [("A", "1
B=2")] = envContent [("A", "1"); ("B", "2")].
Proof. reflexivity. Qed.

(** X14.  Writing a second mapping replaces the first: after two successful
    writes the file holds the text of the second mapping only. *)
Theorem second_write_replaces_the_first (E : env) (st : state) (o1 o2 : JsObject.t) :
  write_failure E (requests st) (path_join (cwd E) ".env") (envContent o1) = None →
  write_failure E (S (requests st)) (path_join (cwd E) ".env") (envContent o2) = None →
  ((writeEnvFile o1;; writeEnvFile o2) E st).1 = Returned tt ∧
  files ((writeEnvFile o1;; writeEnvFile o2) E st).2 =
    <[path_join (cwd E) ".env" := envContent o2]> (files st).
Proof.
  intros H1 H2.
  unfold writeEnvFile, mbind, M_bind, console_log, process_cwd, fs_writeFile.
  cbn [record trace files requests]. rewrite H1.
  cbn [record trace files requests]. rewrite H2.
  cbn [fst snd files]. by rewrite insert_insert_eq.
Qed.

Lemma second_write_replaces_the_first_witness :
  let E := Samples.local_run in
  let st := init ∅ in
  let o1 := Samples.indexed_config in
  let o2 := Samples.local_config in
  ((writeEnvFile o1;; writeEnvFile o2) E st).1 = Returned tt ∧
  files ((writeEnvFile o1;; writeEnvFile o2) E st).2 =
    <[path_join (cwd E) ".env" := envContent o2]> (files st).
Proof.
  intros E st o1 o2. apply (second_write_replaces_the_first E st o1 o2); reflexivity.
Defined.

End TextProperties.

(** ** The values of the mapping *)

Section ValueProperties.
Import JsString.
Local Arguments Hex.encode : simpl never.

Lemma string_rev_app (s acc : string) : String.rev_app s acc = String.rev s +:+ acc.
Proof.
  unfold String.rev. revert acc. induction s as [|c s IH]; intros acc; simpl; [done|].
  rewrite (IH (String c acc)), (IH (String c EmptyString)).
  by rewrite append_assoc.
Qed.

Lemma string_rev_cons (c : ascii) (s : string) :
  String.rev (String c s) = String.rev s +:+ String c EmptyString.
Proof. unfold String.rev at 1. simpl. by rewrite string_rev_app. Qed.

Lemma string_rev_append (a b : string) : String.rev (a +:+ b) = String.rev b +:+ String.rev a.
Proof.
  induction a as [|c a IH]; simpl; [by rewrite append_empty_r|].
  by rewrite !string_rev_cons, IH, append_assoc.
Qed.

Lemma string_rev_involutive (s : string) : String.rev (String.rev s) = s.
Proof.
  induction s as [|c s IH]; [done|]. by rewrite string_rev_cons, string_rev_append, IH.
Qed.

(** What is left after dropping white space does not start with any. *)
Lemma drop_spaces_head (sp2 : ascii → ascii → bool) (sp3 : ascii → ascii → ascii → bool)
    (s : string) :
  head_is is_space (drop_spaces sp2 sp3 s) = false.
Proof.
  remember (String.length s) as n eqn:Hn.
  assert (String.length s ≤ n)%nat as Hle by lia. clear Hn.
  revert s Hle. induction n as [|n IH]; intros s Hle.
  - destruct s; [done|]. simpl in Hle. lia.
  - destruct s as [|a r1]; [done|]. cbn [drop_spaces]. simpl in Hle.
    destruct (is_space a) eqn:Ha; [apply IH; lia|].
    destruct r1 as [|b r2]; [by simpl|]. simpl in Hle.
    destruct (sp2 a b); [apply IH; lia|].
    destruct r2 as [|c r3]; [by simpl|]. simpl in Hle.
    destruct (sp3 a b c); [apply IH; lia|]. by simpl.
Qed.

(** Dropping white space leaves the rest of the string as it is. *)
Lemma drop_spaces_suffix (sp2 : ascii → ascii → bool) (sp3 : ascii → ascii → ascii → bool)
    (s : string) :
  ∃ pre, s = pre +:+ drop_spaces sp2 sp3 s.
Proof.
  remember (String.length s) as n eqn:Hn.
  assert (String.length s ≤ n)%nat as Hle by lia. clear Hn.
  revert s Hle. induction n as [|n IH]; intros s Hle.
  - destruct s; [by exists EmptyString|]. simpl in Hle. lia.
  - destruct s as [|a r1]; [by exists EmptyString|]. cbn [drop_spaces]. simpl in Hle.
    destruct (is_space a).
    { destruct (IH r1) as [pre Hpre]; [lia|]. exists (String a pre). simpl. congruence. }
    destruct r1 as [|b r2]; [by exists EmptyString|]. simpl in Hle.
    destruct (sp2 a b).
    { destruct (IH r2) as [pre Hpre]; [lia|].
      exists (String a (String b pre)). simpl. congruence. }
    destruct r2 as [|c r3]; [by exists EmptyString|]. simpl in Hle.
    destruct (sp3 a b c); [|by exists EmptyString].
    destruct (IH r3) as [pre Hpre]; [lia|].
    exists (String a (String b (String c pre))). simpl. congruence.
Qed.

(** [trim] leaves no white space at either end. *)
Lemma trim_no_outer_space (s : string) : no_outer_space (trim s) = true.
Proof.
  unfold no_outer_space, trim, trimEnd, trimStart.
  rewrite string_rev_involutive, drop_spaces_head.
  pose proof (drop_spaces_head is_space2 is_space3 s) as Hhead.
  set (t := drop_spaces is_space2 is_space3 s) in *.
  destruct (drop_spaces_suffix (λ b a, is_space2 a b) (λ c b a, is_space3 a b c)
              (String.rev t)) as [pre Hpre].
  set (d := drop_spaces _ _ (String.rev t)) in *.
  apply (f_equal String.rev) in Hpre.
  rewrite string_rev_involutive, string_rev_append in Hpre.
  rewrite Hpre in Hhead.
  destruct (String.rev d) as [|c u]; [done|]. simpl in Hhead |- *. by rewrite Hhead.
Qed.

(** White space outside ASCII is dropped too: a byte order mark and a
    no-break space in front, an em space and a line feed behind. *)
Example trim_unicode_space :
  trim (String "239" (String "187" (String "191" (String "194" (String "160"
          ("libsql://example.turso.io" +:+
           String "226" (String "128" (String "131" (String "010" EmptyString))))))))) =
  "libsql://example.turso.io".
Proof. reflexivity. Qed.

(** X11.  Every value of the assembled mapping is what its step produced:
    the base URL is the fixed one, the auth secret encodes the bytes drawn,
    the webhook secret is the match in the session output, the URL is the
    fixed local one or the trimmed output of the URL query, and the token,
    when kept, is the non-empty answer. *)
Theorem assembled_values_come_from_the_steps (E : env) (fs : gmap string string)
    (envVars : JsObject.t) (st : state) :
  main_envVars E (init fs) = (Returned envVars, st) →
  JsObject.get "BASE_URL" envVars = Some "http://localhost:3000" ∧
  option_list (JsObject.get "AUTH_SECRET" envVars) = Hex.encode <$> random_draws (trace st) ∧
  option_list (JsObject.get "STRIPE_WEBHOOK_SECRET" envVars) = session_secrets (trace st) ∧
  option_list (JsObject.get "TURSO_DATABASE_URL" envVars) =
    (if chose_remote (trace st) then fetched_urls (trace st) else ["file:dev.db"]) ∧
  option_list (JsObject.get "TURSO_AUTH_TOKEN" envVars) =
    filter (λ t, is_empty t = false) (answers_to token_prompt (trace st)).
Proof.
  intros Hrun. all_runs Hrun.
  all: unfold session_secrets.
  all: cbn -[eqb toLowerCase Readline.line answer exec_reply is_empty Hex.encode Whsec.match_ trim
             entropy seq filter].
  all: unfold chooses_local; rewrite ?Heqb, ?Heqb0, ?Heqb1.
  all: try (destruct (is_empty _) eqn:Hempty;
       cbn -[eqb toLowerCase Readline.line answer exec_reply is_empty Hex.encode Whsec.match_ trim
             entropy seq filter];
       unfold chooses_local; rewrite ?Heqb, ?Heqb0, ?Heqb1).
  all: use_matches.
  all: repeat split.
  all: try done.
  all: first [ by rewrite filter_cons_True, filter_nil by done
             | by rewrite filter_cons_False, filter_nil by (by rewrite Hempty) ].
Qed.

Lemma assembled_values_come_from_the_steps_witness :
  let run := main_envVars Samples.remote_run (init ∅) in
  match run.1 with
  | Returned envVars =>
      JsObject.get "BASE_URL" envVars = Some "http://localhost:3000" ∧
      option_list (JsObject.get "AUTH_SECRET" envVars)
        = Hex.encode <$> random_draws (trace run.2) ∧
      option_list (JsObject.get "STRIPE_WEBHOOK_SECRET" envVars)
        = session_secrets (trace run.2) ∧
      option_list (JsObject.get "TURSO_DATABASE_URL" envVars) =
        (if chose_remote (trace run.2) then fetched_urls (trace run.2)
         else ["file:dev.db"]) ∧
      option_list (JsObject.get "TURSO_AUTH_TOKEN" envVars) =
        filter (λ t, is_empty t = false) (answers_to token_prompt (trace run.2))
  | _ => False
  end.
Proof.
  intros run.
  destruct run as [[envVars| | |] st] eqn:Hrun; [|discriminate Hrun..].
  exact (assembled_values_come_from_the_steps Samples.remote_run ∅ envVars st Hrun).
Defined.

(** X12.  The data-store URL of an assembled mapping has no white space at
    either end. *)
Theorem stored_url_has_no_outer_space (E : env) (fs : gmap string string)
    (envVars : JsObject.t) (st : state) :
  main_envVars E (init fs) = (Returned envVars, st) →
  from_option no_outer_space false (JsObject.get "TURSO_DATABASE_URL" envVars) = true.
Proof.
  intros Hrun. all_runs Hrun.
  all: cbn -[eqb toLowerCase Readline.line answer exec_reply is_empty Hex.encode trim no_outer_space].
  all: try reflexivity.
  all: try (destruct (is_empty _);
       cbn -[eqb toLowerCase Readline.line answer exec_reply is_empty Hex.encode trim no_outer_space]).
  all: apply trim_no_outer_space.
Qed.

Lemma stored_url_has_no_outer_space_witness :
  let run := main_envVars Samples.remote_run (init ∅) in
  match run.1 with
  | Returned envVars =>
      from_option no_outer_space false (JsObject.get "TURSO_DATABASE_URL" envVars) = true
  | _ => False
  end.
Proof.
  intros run.
  destruct run as [[envVars| | |] st] eqn:Hrun; [|discriminate Hrun..].
  exact (stored_url_has_no_outer_space Samples.remote_run ∅ envVars st Hrun).
Defined.

Lemma assembled_keys_witness :
  let run := main_envVars Samples.remote_run (init ∅) in
  match run.1 with
  | Returned envVars =>
      JsObject.keys envVars =
        mandatory_keys ++
        (if JsObject.has "TURSO_AUTH_TOKEN" envVars then ["TURSO_AUTH_TOKEN"] else [])
  | _ => False
  end.
Proof.
  intros run.
  destruct run as [[envVars| | |] st] eqn:Hrun; [|discriminate Hrun..].
  exact (assembled_keys Samples.remote_run ∅ envVars st Hrun).
Defined.

End ValueProperties.
